(** * shopAPI: the generic repository and its relational model

    A shallow embedding of [src/shopAPI/crud.py] (class [BaseCRUD]) and of the
    table declarations of [src/shopAPI/models.py] ([Product], [Order],
    [OrderItem]).

    - Python values are the inductive [pyval]; an instance's column
      attributes and a [dict[str, Any]] are [gmap string pyval].
    - Exceptions are the inductive [Exn]; a Python call that may raise
      returns [result A] (either the exception or the value).
    - The database is a [Store] of three tables, threaded explicitly.  A
      table is a list of rows; statements read it in list order, which
      stands for the order the database happens to return rows in.
    - An entity is the dict of its column attributes: the instances a
      repository hands out have their relationship attributes unloaded.
    - What the ORM (SQLAlchemy / SQLModel / pydantic) does on behalf of the
      code is written out once, in the modules [Pydantic] and [Orm], from
      the documented behaviour of the calls the source makes. *)

From stdpp Require Import gmap strings list fin_maps.
From Stdlib Require Import ZArith NArith Floats.

Set Warnings "-register-all".
Local Open Scope string_scope.

(** ** Python values *)

(** [models.py], class [OrderStatus(str, enum.Enum)]. *)
Inductive OrderStatus : Type :=
  | created | processing | shipped | delivered | canceled.

Definition status_value (s : OrderStatus) : string :=
  match s with
  | created => "created"
  | processing => "processing"
  | shipped => "shipped"
  | delivered => "delivered"
  | canceled => "canceled"
  end.

(** The values that flow through the repository.  A [float] is an IEEE-754
    double, a [UUID] is carried by its 128-bit integer, a [datetime] by a
    timestamp.  [PySet] lists its elements in iteration order. *)
Inductive pyval : Type :=
  | PyNone
  | PyBool (b : bool)
  | PyInt (z : Z)
  | PyFloat (x : float)
  | PyStr (s : string)
  | PyUUID (u : N)
  | PyDatetime (t : Z)
  | PyEnum (s : OrderStatus)
  | PyList (l : list pyval)
  | PySet (l : list pyval)
  | PyDict (d : list (string * pyval)).

(** [bool(v)]: the truth value Python's [not v] tests. *)
Definition truthy (v : pyval) : bool :=
  match v with
  | PyNone => false
  | PyBool b => b
  | PyInt z => negb (z =? 0)%Z
  | PyFloat x => negb (PrimFloat.eqb x 0%float)
  | PyStr s => negb (String.eqb s "")
  | PyUUID _ => true
  | PyDatetime _ => true
  | PyEnum s => negb (String.eqb (status_value s) "")
  | PyList l => match l with [] => false | _ => true end
  | PySet l => match l with [] => false | _ => true end
  | PyDict d => match d with [] => false | _ => true end
  end.

(** [isinstance(v, set)]. *)
Definition isinstance_set (v : pyval) : bool :=
  match v with PySet _ => true | _ => false end.

(** [v is not None]. *)
Definition is_not_None (v : pyval) : bool :=
  match v with PyNone => false | _ => true end.

(** [isinstance(v, str)], with the string it holds: [OrderStatus] mixes in
    [str], so a member is a string too. *)
Definition as_str (v : pyval) : option string :=
  match v with
  | PyStr s => Some s
  | PyEnum s => Some (status_value s)
  | _ => None
  end.

(** [type(v).__name__]. *)
Definition type_name (v : pyval) : string :=
  match v with
  | PyNone => "NoneType"
  | PyBool _ => "bool"
  | PyInt _ => "int"
  | PyFloat _ => "float"
  | PyStr _ => "str"
  | PyUUID _ => "UUID"
  | PyDatetime _ => "datetime.datetime"
  | PyEnum _ => "OrderStatus"
  | PyList _ => "list"
  | PySet _ => "set"
  | PyDict _ => "dict"
  end.

(** ** Exceptions and fallible calls *)

Inductive Exn : Type :=
  | TypeError (msg : string)
  | ValueError (msg : string)
  | AttributeError (attr : string)
  | MultipleResultsFound
  | InvalidRequestError (msg : string)
  | IntegrityError (msg : string)
  | HTTPException (status_code : Z) (detail : string)
  | OverflowError (msg : string)
  | ArgumentError (msg : string)
  | MissingGreenlet.

Definition result (A : Type) : Type := Exn + A.

Definition Raise {A : Type} (e : Exn) : result A := inl e.
Definition Return {A : Type} (a : A) : result A := inr a.

#[export] Instance result_ret : MRet result := λ A a, inr a.
#[export] Instance result_bind : MBind result :=
  λ A B f r, match r with inl e => inl e | inr a => f a end.
#[export] Instance result_fmap : FMap result :=
  λ A B f r, match r with inl e => inl e | inr a => inr (f a) end.

(** [functools.reduce(function, iterable, initial)] with a [function] that
    may raise. *)
Fixpoint reduce {A B : Type} (function : A → B → result A) (iterable : list B)
    (initial : A) : result A :=
  match iterable with
  | [] => Return initial
  | x :: rest => a ← function initial x; reduce function rest a
  end.

(** The double-quote character, for the messages that contain one. *)
Definition dq : string := String (Ascii.ascii_of_nat 34) EmptyString.

(** The message of [str + v] for a [v] that is not a string. *)
Definition concat_msg (v : pyval) : string :=
  "can only concatenate str (not " ++ dq ++ type_name v ++ dq ++ ") to str".

(** The spec's error conditions, as the exceptions the code raises. *)
Definition InvalidInput : Exn := TypeError "join_ must be a set".
Definition UnsupportedRelationship (name : string) : Exn :=
  AttributeError ("_join_" ++ name).

(** ** The table models of [models.py] *)

(** The three classes declared with [table=True]; [BaseCRUD] is generic in
    one of them ([self.model_class]). *)
Inductive Model : Type := Product | Order | OrderItem.

#[export] Instance Model_eq_dec : EqDecision Model.
Proof. solve_decision. Defined.

(** [model_class.__name__]. *)
Definition model_name (m : Model) : string :=
  match m with
  | Product => "Product"
  | Order => "Order"
  | OrderItem => "OrderItem"
  end.

(** The mapped columns of each class: the fields of its base class and the
    [id] of [IdMixin], then its own. *)
Definition columns (m : Model) : list string :=
  match m with
  | Product => ["id"; "name"; "description"; "price"; "amount"]
  | Order => ["id"; "creation_date"; "status"]
  | OrderItem => ["id"; "amount"; "order_id"; "product_id"]
  end.

(** The [Relationship(...)] attributes of each class. *)
Definition relationships (m : Model) : list string :=
  match m with
  | Product => ["order_items"]
  | Order => ["order_items"]
  | OrderItem => ["order"; "product"]
  end.

(** The many-to-one relationships, each with the foreign-key column it
    maps: [OrderItem.order] and [OrderItem.product]. *)
Definition scalar_relationships (m : Model) : list (string * string) :=
  match m with
  | OrderItem => [("order", "order_id"); ("product", "product_id")]
  | _ => []
  end.

(** The one-to-many relationships, each with the table of its members and
    the column that points back: [Product.order_items] and
    [Order.order_items]. *)
Definition collection_relationships (m : Model)
  : list (string * (Model * string)) :=
  match m with
  | Product => [("order_items", (OrderItem, "product_id"))]
  | Order => [("order_items", (OrderItem, "order_id"))]
  | OrderItem => []
  end.

(** [__tablename__] of each class. *)
Definition tablename (m : Model) : string :=
  match m with
  | Product => "product"
  | Order => "order"
  | OrderItem => "order_item"
  end.

(** Looking a name up in a list of pairs. *)
Fixpoint assoc {A : Type} (k : string) (l : list (string * A)) : option A :=
  match l with
  | [] => None
  | (k', a) :: l' => if String.eqb k k' then Some a else assoc k l'
  end.

(** Columns that reject NULL besides the primary key: the fields declared
    [nullable=False], and [Order.creation_date], whose type is not optional.
    [OrderItem.order_id] and [OrderItem.product_id] are typed
    [UUID | None] and are nullable. *)
Definition not_null (m : Model) : list string :=
  match m with
  | Product => ["name"; "description"; "price"; "amount"]
  | Order => ["creation_date"; "status"]
  | OrderItem => ["amount"]
  end.

(** [Field(foreign_key="order.id")] and [Field(foreign_key="product.id")]. *)
Definition foreign_keys (m : Model) : list (string * Model) :=
  match m with
  | OrderItem => [("order_id", Order); ("product_id", Product)]
  | _ => []
  end.

(** What the default factories return during one call: the [n]-th instance
    built by the call draws [uuid4 n], and [datetime.now()] reads the clock. *)
Record Draws : Type := { uuid4 : nat → N; datetime_now : Z }.

(** Modelled from the spec: [IdMixin] ([shopAPI.database] is not among the
    sources).  The spec gives every entity an [id], a unique identifier
    assigned at creation; it is the primary key and is drawn when the
    instance is built. *)
Definition IdMixin_default (d : Draws) (n : nat) : pyval := PyUUID (uuid4 d n).

(** The default of a field, when it declares one.  [Order.creation_date] has
    [default_factory=datetime.now], [Order.status] has
    [default=OrderStatus.created]; every other field is required. *)
Definition field_default (d : Draws) (n : nat) (m : Model) (k : string)
  : option pyval :=
  if String.eqb k "id" then Some (IdMixin_default d n)
  else match m with
       | Order =>
           if String.eqb k "creation_date" then Some (PyDatetime (datetime_now d))
           else if String.eqb k "status" then Some (PyEnum created)
           else None
       | _ => None
       end.

(** A Python instance of a table class: its column attributes, the
    many-to-one relationships that were assigned on it and not flushed yet
    (only [None] can be assigned, see [set_attribute]) and, for an [Order]
    built by [Order.__init__], the [OrderItem]s of its [order_items]
    collection. *)
Record Instance : Type := {
  i_attrs : gmap string pyval;
  i_order_items : list (gmap string pyval)
}.

(** ** pydantic: schemas and [model_dump] *)
Module Pydantic.

(** A field value of a schema instance: a plain value, a list, or a nested
    schema instance with its own [model_fields_set]. *)
Inductive sval : Type :=
  | SAtom (v : pyval)
  | SList (l : list sval)
  | SModel (fields : list (string * sval)) (fields_set : list string).

(** A schema instance ([BaseModel]): the current value of each field and
    the names of the fields that were explicitly set. *)
Record BaseModel : Type := {
  model_fields : gmap string sval;
  model_fields_set : gset string
}.

(** [model_dump(exclude_unset=True)] on a field value: nested schemas
    become dicts holding only their explicitly set fields. *)
Fixpoint dump (s : sval) : pyval :=
  match s with
  | SAtom v => v
  | SList l => PyList (map dump l)
  | SModel fields fields_set =>
      PyDict ((fix go (fs : list (string * sval)) : list (string * pyval) :=
                 match fs with
                 | [] => []
                 | (k, v) :: fs' =>
                     if bool_decide (k ∈ fields_set)
                     then (k, dump v) :: go fs'
                     else go fs'
                 end) fields)
  end.

(** [schema.model_dump(exclude=excludes, exclude_unset=True)]. *)
Definition model_dump (schema : BaseModel) (exclude : option (gset string))
  : gmap string pyval :=
  dump <$> filter (λ kv, kv.1 ∈ model_fields_set schema
                         ∧ kv.1 ∉ default ∅ exclude)
                  (model_fields schema).

End Pydantic.

(** ** SQLModel: building an instance of a table class *)
Module SQLModel.

(** The field values a table class sets on a new instance from its
    keywords: the keyword when given, else the field's default, else
    nothing.  Table classes are not validated, and keywords that name no
    field are dropped. *)
Definition init_fields (d : Draws) (n : nat) (m : Model)
    (kwargs : gmap string pyval) : gmap string pyval :=
  foldr (λ c acc,
           match kwargs !! c with
           | Some v => <[c := v]> acc
           | None => match field_default d n m c with
                     | Some v => <[c := v]> acc
                     | None => acc
                     end
           end) ∅ (columns m).

(** [value.__class__.__name__]. *)
Definition class_name (v : pyval) : string :=
  match v with
  | PyNone => "None"
  | PyDatetime _ => "datetime"
  | _ => type_name v
  end.

(** Assigning to a relationship attribute, which the ORM instruments.  A
    many-to-one relationship takes [None]; any other value must be a mapped
    instance, and no [pyval] is one.  A one-to-many relationship takes a
    list: a value of another type is refused, and the members of a list
    must be mapped instances.  On a [persistent] instance the old
    collection is read before it is replaced: the instances a repository
    hands out have their collections unloaded, and the asynchronous session
    refuses to load one outside its own IO context. *)
Definition set_attribute (persistent : bool) (m : Model) (name : string)
    (v : pyval) : result () :=
  match assoc name (scalar_relationships m) with
  | Some _ =>
      match v with
      | PyNone => Return ()
      | _ => Raise (AttributeError "_sa_instance_state")
      end
  | None =>
      match v with
      | PyList l =>
          if persistent then Raise MissingGreenlet
          else match l with
               | [] => Return ()
               | _ :: _ => Raise (AttributeError "_sa_instance_state")
               end
      | _ => Raise (TypeError ("Incompatible collection type: "
                               ++ class_name v ++ " is not list-like"))
      end
  end.

(** The instance after a relationship was assigned: a many-to-one
    relationship is kept on it for the flush to see. *)
Definition assigned (m : Model) (name : string) (v : pyval)
    (attrs : gmap string pyval) : gmap string pyval :=
  match assoc name (scalar_relationships m) with
  | Some _ => <[name := v]> attrs
  | None => attrs
  end.

(** [SQLModel.__init__] on a table class: the fields are set first, then
    each relationship that has a keyword is assigned, in the order of their
    declaration. *)
Definition table_init (d : Draws) (n : nat) (m : Model)
    (kwargs : gmap string pyval) : result (gmap string pyval) :=
  reduce (λ attrs r,
            match kwargs !! r with
            | Some v =>
                _ ← set_attribute false m r v;
                Return (assigned m r v attrs)
            | None => Return attrs
            end)
         (relationships m) (init_fields d n m kwargs).

End SQLModel.

(** Iterating a value, as a [for] clause does. *)
Definition chars (s : string) : list pyval :=
  (λ c, PyStr (String c EmptyString)) <$> String.list_ascii_of_string s.

Definition iterate (v : pyval) : result (list pyval) :=
  match v with
  | PyList l | PySet l => Return l
  | PyDict d => Return ((λ kv, PyStr kv.1) <$> d)
  | PyStr s => Return (chars s)
  | PyEnum s => Return (chars (status_value s))
  | _ => Raise (TypeError ("'" ++ type_name v ++ "' object is not iterable"))
  end.

(** [[f(i, x) for i, x in enumerate(l, start)]] with a fallible [f]. *)
Fixpoint traverse_from {A B : Type} (f : nat → A → result B) (start : nat)
    (l : list A) : result (list B) :=
  match l with
  | [] => Return []
  | x :: l' =>
      y ← f start x;
      ys ← traverse_from f (S start) l';
      Return (y :: ys)
  end.

(** [OrderItem] called on the unpacked [order_item], which must be a
    mapping. *)
Definition OrderItem_init (d : Draws) (n : nat) (order_item : pyval)
  : result (gmap string pyval) :=
  match order_item with
  | PyDict kv => SQLModel.table_init d n OrderItem (list_to_map kv)
  | _ => Raise (TypeError ("OrderItem() argument after ** must be a mapping, not "
                           ++ type_name order_item))
  end.

(** [Order.__init__] ([models.py], lines 114-117): [order_items] is popped
    from the keywords (default: the empty list), the remaining keywords
    initialise the order, and each element of [order_items] is unpacked
    into a new [OrderItem]. *)
Definition Order_init (d : Draws) (kwargs : gmap string pyval)
  : result Instance :=
  let order_items := default (PyList []) (kwargs !! "order_items") in
  let kwargs := delete "order_items" kwargs in
  attrs ← SQLModel.table_init d 0 Order kwargs;
  l ← iterate order_items;
  items ← traverse_from (OrderItem_init d) 1 l;
  Return {| i_attrs := attrs; i_order_items := items |}.

(** [self.model_class] called on the unpacked [attributes]. *)
Definition instantiate (d : Draws) (m : Model) (attributes : gmap string pyval)
  : result Instance :=
  match m with
  | Order => Order_init d attributes
  | _ =>
      attrs ← SQLModel.table_init d 0 m attributes;
      Return {| i_attrs := attrs; i_order_items := [] |}
  end.

(** ** The database *)

(** One list of rows per table; a row maps column names to values, and a
    missing column reads as NULL. *)
Record Store : Type := {
  products : list (gmap string pyval);
  orders : list (gmap string pyval);
  order_items : list (gmap string pyval)
}.

Definition empty_store : Store :=
  {| products := []; orders := []; order_items := [] |}.

Definition table (m : Model) (st : Store) : list (gmap string pyval) :=
  match m with
  | Product => products st
  | Order => orders st
  | OrderItem => order_items st
  end.

Definition set_table (m : Model) (rows : list (gmap string pyval))
    (st : Store) : Store :=
  match m with
  | Product => {| products := rows; orders := orders st;
                  order_items := order_items st |}
  | Order => {| products := products st; orders := rows;
                order_items := order_items st |}
  | OrderItem => {| products := products st; orders := orders st;
                    order_items := rows |}
  end.

(** The primary key of a row, when it holds one. *)
Definition pk (row : gmap string pyval) : option N :=
  match row !! "id" with
  | Some (PyUUID u) => Some u
  | _ => None
  end.

Definition pks (rows : list (gmap string pyval)) : list N := omap pk rows.

(** Whether an attribute is set, and to [None]. *)
Definition holds_None (c : option pyval) : bool :=
  match c with
  | Some PyNone => true
  | _ => false
  end.

Definition is_null (c : option pyval) : bool :=
  match c with
  | None | Some PyNone => true
  | Some _ => false
  end.

(** The integer a [bool] or an [int] is bound as. *)
Definition as_int (v : pyval) : option Z :=
  match v with
  | PyBool b => Some (if b then 1 else 0)%Z
  | PyInt z => Some z
  | _ => None
  end.

(** Whether a double holds exactly the integer [z]. *)
Definition float_eqb_Z (x : float) (z : Z) : bool :=
  match Prim2SF x with
  | S754_zero _ => (z =? 0)%Z
  | S754_finite s m e =>
      let magnitude :=
        if (0 <=? e)%Z then Some (Z.pos m * 2 ^ e)%Z
        else if (Z.pos m mod 2 ^ (- e) =? 0)%Z
             then Some (Z.pos m / 2 ^ (- e))%Z
             else None in
      match magnitude with
      | Some n => (z =? (if s then - n else n))%Z
      | None => false
      end
  | _ => false
  end.

(** Equality of two scalars as the database compares them.  Numbers are
    compared by value, whatever their Python type: an integer column that
    holds [5] matches the float [5.0].  Other values match values of their
    own type only. *)
Definition atom_eqb (a b : pyval) : bool :=
  match as_int a, as_int b with
  | Some x, Some y => (x =? y)%Z
  | Some x, None => match b with PyFloat y => float_eqb_Z y x | _ => false end
  | None, Some y => match a with PyFloat x => float_eqb_Z x y | _ => false end
  | None, None =>
      match a, b with
      | PyFloat x, PyFloat y => PrimFloat.eqb x y
      | PyUUID x, PyUUID y => (x =? y)%N
      | PyDatetime x, PyDatetime y => (x =? y)%Z
      | (PyStr _ | PyEnum _), (PyStr _ | PyEnum _) =>
          match as_str a, as_str b with
          | Some x, Some y => String.eqb x y
          | _, _ => false
          end
      | _, _ => false
      end
  end.

(** The criterion [column == value]: [IS NULL] when [value] is [None]. *)
Definition sql_eq (c : option pyval) (value : pyval) : bool :=
  match value with
  | PyNone => is_null c
  | _ => match c with
         | Some x => atom_eqb x value
         | None => false
         end
  end.

(** ** SQLAlchemy: statements, results and the unit of work *)
Module Orm.

(** A loader option a join method puts on a statement: whether it is a
    joined eager load against a collection, and how many result rows the
    join yields for one parent row. *)
Record Loader : Type := {
  ld_collection : bool;
  ld_rows : Store → gmap string pyval → nat
}.

(** A criterion of a WHERE clause: a column compared with a value, a
    constant ([where(True)] and [where(False)]), or a parent that has no
    member in a collection (NOT EXISTS over the rows of [child] whose
    column [fk] holds the parent's key). *)
Inductive Criterion : Type :=
  | Eq (column : string) (value : pyval)
  | Const (b : bool)
  | NoMember (child : Model) (fk : string).

Record Select : Type := {
  sel_from : Model;
  sel_options : list Loader;
  sel_where : list Criterion
}.

(** [select(model_class)]. *)
Definition select (m : Model) : Select :=
  {| sel_from := m; sel_options := []; sel_where := [] |}.

(** [query.options(loader)]. *)
Definition options (ld : Loader) (query : Select) : Select :=
  {| sel_from := sel_from query;
     sel_options := sel_options query ++ [ld];
     sel_where := sel_where query |}.

(** [query.where(criterion)]. *)
Definition where_clause (criterion : Criterion) (query : Select) : Select :=
  {| sel_from := sel_from query;
     sel_options := sel_options query;
     sel_where := sel_where query ++ [criterion] |}.

(** [query.where(column == value)]. *)
Definition where_ (column : string) (value : pyval) (query : Select)
  : Select :=
  where_clause (Eq column value) query.

(** Whether a row of a member table points at the parent row: equality of
    the column with the parent's key, which a NULL on either side fails. *)
Definition member_of (parent : gmap string pyval) (fk : string)
    (item : gmap string pyval) : bool :=
  match parent !! "id" with
  | Some key => negb (is_null (Some key)) && sql_eq (item !! fk) key
  | None => false
  end.

Definition holds (st : Store) (row : gmap string pyval) (c : Criterion)
  : bool :=
  match c with
  | Eq column value => sql_eq (row !! column) value
  | Const b => b
  | NoMember child fk => negb (existsb (member_of row fk) (table child st))
  end.

Definition row_matches (st : Store) (query : Select)
    (row : gmap string pyval) : bool :=
  forallb (holds st row) (sel_where query).

(** Rows one parent row occupies in the raw result. *)
Definition fanout (st : Store) (query : Select) (row : gmap string pyval)
  : nat :=
  foldr (λ ld n, ld_rows ld st row * n) 1 (sel_options query).

(** The raw rows of the statement, parents repeated by the joins. *)
Definition fetch (st : Store) (query : Select) : list (gmap string pyval) :=
  row ← filter (λ row, row_matches st query row = true)
               (table (sel_from query) st);
  replicate (fanout st query row) row.

(** A result object: its raw rows, whether the statement holds a joined
    eager load against a collection, and whether [unique()] was called. *)
Record Result : Type := {
  raw_rows : list (gmap string pyval);
  needs_unique : bool;
  uniqued : bool
}.

(** [session.execute(query)]. *)
Definition execute (st : Store) (query : Select) : Result :=
  {| raw_rows := fetch st query;
     needs_unique := existsb ld_collection (sel_options query);
     uniqued := false |}.

(** [result.scalars()]: the rows hold one entity each. *)
Definition scalars_of (r : Result) : Result := r.

(** [session.scalars(query)] is [session.execute(query).scalars()]. *)
Definition scalars (st : Store) (query : Select) : Result :=
  scalars_of (execute st query).

(** [result.unique()]. *)
Definition unique (r : Result) : Result :=
  {| raw_rows := raw_rows r; needs_unique := needs_unique r;
     uniqued := true |}.

(** The uniquing filter: an entity already seen is skipped.  The identity
    map holds one instance per primary key, so entities are told apart by
    their key. *)
Fixpoint unique_from (seen : list (option N))
    (rows : list (gmap string pyval)) : list (gmap string pyval) :=
  match rows with
  | [] => []
  | row :: rows' =>
      if bool_decide (pk row ∈ seen) then unique_from seen rows'
      else row :: unique_from (pk row :: seen) rows'
  end.

Definition unique_msg : string :=
  "The unique() method must be invoked on this Result, as it contains results that include joined eager loads against collections".

(** The rows a result hands out.  Without [unique()], the first row of a
    statement with a joined eager load against a collection raises. *)
Definition rows_of (r : Result) : result (list (gmap string pyval)) :=
  if uniqued r then Return (unique_from [] (raw_rows r))
  else match raw_rows r with
       | _ :: _ =>
           if needs_unique r then Raise (InvalidRequestError unique_msg)
           else Return (raw_rows r)
       | [] => Return []
       end.

(** [result.all()]. *)
Definition all (r : Result) : result (list (gmap string pyval)) := rows_of r.

(** [result.one_or_none()]: [None] for no row, the row for one, and
    [MultipleResultsFound] for more. *)
Definition one_or_none (r : Result) : result (option (gmap string pyval)) :=
  rows ← rows_of r;
  match rows with
  | [] => Return None
  | [row] => Return (Some row)
  | _ => Raise MultipleResultsFound
  end.

(** *** Constraints the database checks on a written row *)

Definition null_free (m : Model) (row : gmap string pyval) : bool :=
  forallb (λ c, negb (is_null (row !! c))) (not_null m).

Definition fk_holds (st : Store) (m : Model) (row : gmap string pyval)
  : bool :=
  forallb (λ ct : string * Model,
             match row !! ct.1 with
             | None | Some PyNone => true
             | Some (PyUUID u) => bool_decide (u ∈ pks (table ct.2 st))
             | Some _ => false
             end) (foreign_keys m).

(** Whether a row of [order_item] points at row [u] of table [m]. *)
Definition referenced (st : Store) (m : Model) (u : N) : bool :=
  existsb (λ ct : string * Model,
             bool_decide (ct.2 = m)
             && existsb (λ item, sql_eq (item !! ct.1) (PyUUID u))
                        (order_items st))
          (foreign_keys OrderItem).

(** An integer is written as a signed 64-bit value; the driver refuses a
    larger one before the statement runs. *)
Definition int_fits (c : option pyval) : bool :=
  match c with
  | Some (PyInt z) => (- 2 ^ 63 <=? z)%Z && (z <? 2 ^ 63)%Z
  | _ => true
  end.

Definition bindable (m : Model) (row : gmap string pyval) : bool :=
  forallb (λ c, int_fits (row !! c)) (columns m).

Definition too_large : Exn :=
  OverflowError "Python int too large to convert to SQLite INTEGER".

(** INSERT of one row. *)
Definition insert_row (m : Model) (row : gmap string pyval) (st : Store)
  : result Store :=
  if negb (bindable m row) then Raise too_large else
  match pk row with
  | None => Raise (IntegrityError "primary key")
  | Some u =>
      if bool_decide (u ∈ pks (table m st))
      then Raise (IntegrityError "duplicate key")
      else if negb (null_free m row) then Raise (IntegrityError "not null")
      else if negb (fk_holds st m row) then Raise (IntegrityError "foreign key")
      else Return (set_table m (table m st ++ [row]) st)
  end.

(** UPDATE of the row whose key is [old]. *)
Definition update_row (m : Model) (old : N) (row : gmap string pyval)
    (st : Store) : result Store :=
  if negb (bindable m row) then Raise too_large else
  match pk row with
  | None => Raise (IntegrityError "primary key")
  | Some u =>
      if negb (u =? old)%N && bool_decide (u ∈ pks (table m st))
      then Raise (IntegrityError "duplicate key")
      else if negb (u =? old)%N && referenced st m old
      then Raise (IntegrityError "foreign key")
      else if negb (null_free m row) then Raise (IntegrityError "not null")
      else if negb (fk_holds st m row) then Raise (IntegrityError "foreign key")
      else Return (set_table m
                     ((λ r, if bool_decide (pk r = Some old) then row else r)
                        <$> table m st) st)
  end.

(** *** The unit of work *)

(** The flush synchronises the foreign keys from the relationships: a
    many-to-one relationship that was assigned [None] clears the column it
    maps, whatever was assigned to the column itself.  Once written, the
    instance holds its column values and no relationship attribute. *)
Definition synchronize (m : Model) (attrs : gmap string pyval)
  : gmap string pyval :=
  let written :=
    foldr (λ rc acc,
             if holds_None (attrs !! rc.1) then <[rc.2 := PyNone]> acc
             else acc) attrs (scalar_relationships m) in
  foldr base.delete written (relationships m).

(** [session.add(model)] of a new instance, flushed.  The save-update
    cascade of [Order.order_items] adds the order's items with it; each
    item was given its order when it joined the collection, so the flush
    writes the order's key to it. *)
Definition add_new (m : Model) (model : Instance) (st : Store)
  : result (Instance * Store) :=
  let attrs := synchronize m (i_attrs model) in
  st1 ← insert_row m attrs st;
  let items :=
    (λ item, <["order_id" := default PyNone (attrs !! "id")]>
               (synchronize OrderItem item))
      <$> i_order_items model in
  st2 ← reduce (λ s item, insert_row OrderItem item s) items st1;
  Return ({| i_attrs := attrs; i_order_items := items |}, st2).

(** [session.add(model)] of an instance loaded under key [identity] and
    then modified, flushed: an UPDATE of its row, or an INSERT when the
    instance was never persisted. *)
Definition add_loaded (m : Model) (identity : option N)
    (model : gmap string pyval) (st : Store) : result Store :=
  match identity with
  | Some old =>
      if bool_decide (old ∈ pks (table m st)) then update_row m old model st
      else insert_row m model st
  | None => insert_row m model st
  end.

(** Whether a child row points at parent [u] through [column]. *)
Definition belongs_to (column : string) (u : N) (item : gmap string pyval)
  : bool :=
  sql_eq (item !! column) (PyUUID u).

(** A child that pointed at a deleted parent outside a delete cascade loses
    its reference. *)
Definition nullify (column : string) (u : N) (item : gmap string pyval)
  : gmap string pyval :=
  if belongs_to column u item then <[column := PyNone]> item else item.

Definition drop_pk (u : N) (rows : list (gmap string pyval))
  : list (gmap string pyval) :=
  filter (λ r, pk r ≠ Some u) rows.

(** [session.delete(model)], flushed.  The instance must have an identity
    key, which an instance that was stored has from its primary key; when
    its row is gone already the DELETE matches no row and nothing is
    raised.  [Order.order_items] is declared with [cascade="all"], so the
    items of a deleted order are deleted with it; [Product.order_items] has
    the default cascade, so the items of a deleted product stay and lose
    their [product_id]. *)
Definition session_delete (m : Model) (model : gmap string pyval)
    (st : Store)
  : result Store :=
  match pk model with
  | Some u =>
        Return
          match m with
          | Order =>
              {| products := products st;
                 orders := drop_pk u (orders st);
                 order_items :=
                   filter (λ item, belongs_to "order_id" u item = false)
                          (order_items st) |}
          | Product =>
              {| products := drop_pk u (products st);
                 orders := orders st;
                 order_items :=
                   nullify "product_id" u <$> order_items st |}
          | OrderItem =>
              {| products := products st;
                 orders := orders st;
                 order_items := drop_pk u (order_items st) |}
          end
  | None => Raise (InvalidRequestError "Instance is not persisted")
  end.

End Orm.

(** Modelled from the spec: the [Transactional] decorator
    ([shopAPI.database] is not among the sources).  On normal completion of
    the wrapped operation its changes are committed before control returns;
    on any failure all changes made since the transaction began are
    discarded and the failure is re-raised unchanged. *)
Definition Transactional {A : Type} (body : Store → result (A * Store))
    (st : Store) : Store * result A :=
  match body st with
  | inl e => (st, inl e)
  | inr (a, st') => (st', inr a)
  end.

(** ** [crud.py]: class [BaseCRUD] *)

Import Orm.

(** [self]: the model class the repository was built with, and the methods
    a concrete repository class adds to [BaseCRUD], by attribute name.  The
    join methods [_join_<name>] live there; [BaseCRUD] defines no attribute
    whose name starts with [_join_].  [class_attributes] holds what the
    model class has besides the columns, the relationships and the
    [__tablename__] that [models.py] declares (the attributes it inherits
    from [SQLModel], its methods): such an attribute is a plain Python
    object, given by what [==] answers when it is compared with a value. *)
Record BaseCRUD : Type := {
  model_class : Model;
  join_methods : string → option (Select → Select);
  class_attributes : string → option (pyval → bool)
}.

(** What a repository call hands back: [None], one entity, or a list. *)
Inductive Returned : Type :=
  | RNone
  | REntity (entity : gmap string pyval)
  | RList (entities : list (gmap string pyval)).

(** [bool(db_obj)]: an entity is always true. *)
Definition returned_truthy (r : Returned) : bool :=
  match r with
  | RNone => false
  | REntity _ => true
  | RList l => match l with [] => false | _ => true end
  end.

(** [getattr(self, name)] for a name starting with [_join_]. *)
Definition getattr_self (self : BaseCRUD) (name : string)
  : result (Select → Select) :=
  match join_methods self name with
  | Some method => Return method
  | None => Raise (AttributeError name)
  end.

(** [extract_attributes_from_schema] (lines 194-206). *)
Definition extract_attributes_from_schema (schema : Pydantic.BaseModel)
    (excludes : option (gset string)) : gmap string pyval :=
  Pydantic.model_dump schema excludes.

(** [_add_join_to_query] (lines 184-192): the name is concatenated first,
    then looked up on [self], then called. *)
Definition _add_join_to_query (self : BaseCRUD) (query : Select)
    (join_ : pyval) : result Select :=
  match as_str join_ with
  | Some name =>
      method ← getattr_self self ("_join_" ++ name);
      Return (method query)
  | None => Raise (TypeError (concat_msg join_))
  end.

(** [_optional_join] (lines 168-182). *)
Definition _optional_join (self : BaseCRUD) (query : Select) (join_ : pyval)
  : result Select :=
  if negb (truthy join_) then Return query
  else if negb (isinstance_set join_) then Raise (TypeError "join_ must be a set")
  else names ← iterate join_;
       reduce (_add_join_to_query self) names query.

(** [_query] (lines 116-126). *)
Definition _query (self : BaseCRUD) (join_ : pyval) : result Select :=
  let query := select (model_class self) in
  _optional_join self query join_.

(** What [getattr(self.model_class, field)] finds: a mapped column, a
    many-to-one relationship (with its foreign key), a one-to-many
    relationship (with the member table and the column pointing back), or
    a plain Python object. *)
Inductive ClassAttribute : Type :=
  | AColumn (name : string)
  | AScalar (fk : string)
  | ACollection (child : Model) (fk : string)
  | APlain (equals : pyval → bool).

(** [getattr(self.model_class, field)]. *)
Definition getattr_model_class (self : BaseCRUD) (field : string)
  : result ClassAttribute :=
  let m := model_class self in
  if bool_decide (field ∈ columns m) then Return (AColumn field)
  else match assoc field (scalar_relationships m) with
       | Some fk => Return (AScalar fk)
       | None =>
           match assoc field (collection_relationships m) with
           | Some (child, fk) => Return (ACollection child fk)
           | None =>
               if String.eqb field "__tablename__"
               then Return (APlain (λ v, bool_decide
                                           (as_str v = Some (tablename m))))
               else match class_attributes self field with
                    | Some equals => Return (APlain equals)
                    | None => Raise (AttributeError field)
                    end
           end
       end.

(** [attribute == value].  A column gives a comparison of the column; a
    many-to-one relationship compared with [None] gives its foreign key IS
    NULL, and must be compared with a mapped instance otherwise; a
    one-to-many relationship compared with [None] gives the parents without
    members, and cannot be compared with anything else; a plain object
    gives a Python [bool]. *)
Definition compare (attribute : ClassAttribute) (value : pyval)
  : result Criterion :=
  match attribute with
  | AColumn name => Return (Eq name value)
  | AScalar fk =>
      match value with
      | PyNone => Return (Eq fk PyNone)
      | _ => Raise (ArgumentError
                      "Mapped instance expected for relationship comparison to object.")
      end
  | ACollection child fk =>
      match value with
      | PyNone => Return (NoMember child fk)
      | _ => Raise (InvalidRequestError
                      "Can't compare a collection to an object or collection; use contains() to test for membership.")
      end
  | APlain equals => Return (Const (equals value))
  end.

(** [_get_by] (lines 157-166). *)
Definition _get_by (self : BaseCRUD) (query : Select) (field : string)
    (value : pyval) : result Select :=
  criterion ← (attribute ← getattr_model_class self field;
               compare attribute value);
  Return (where_clause criterion query).

(** [_all] (lines 128-136). *)
Definition _all (st : Store) (query : Select)
  : result (list (gmap string pyval)) :=
  let query := scalars st query in
  all query.

(** [_all_unique] (lines 138-146). *)
Definition _all_unique (st : Store) (query : Select)
  : result (list (gmap string pyval)) :=
  let result := execute st query in
  all (scalars_of (unique result)).

(** [_one_or_none] (lines 148-155). *)
Definition _one_or_none (st : Store) (query : Select) : result Returned :=
  let query := scalars st query in
  o ← one_or_none query;
  Return match o with Some entity => REntity entity | None => RNone end.

(** [get_by] (lines 39-62). *)
Definition get_by (self : BaseCRUD) (field : string) (value : pyval)
    (join_ : pyval) (unique : bool) (st : Store) : result Returned :=
  query ← _query self join_;
  query ← _get_by self query field value;
  if unique then _one_or_none st query
  else if is_not_None join_ then RList <$> _all_unique st query
  else RList <$> _all st query.

(** [get_by_id] (lines 64-79). *)
Definition get_by_id (self : BaseCRUD) (id : pyval) (join_ : pyval)
    (st : Store) : result Returned :=
  db_obj ← get_by self "id" id join_ true st;
  if negb (returned_truthy db_obj)
  then Raise (HTTPException 404 (model_name (model_class self) ++ " not found"))
  else Return db_obj.

(** [create] (lines 24-37).  [model_dump] always returns a dict, so the
    [attributes is None] branch is never taken. *)
Definition create (self : BaseCRUD) (d : Draws)
    (model_create : Pydantic.BaseModel) : Store → Store * result Instance :=
  Transactional (λ st,
    let attributes := extract_attributes_from_schema model_create None in
    model ← instantiate d (model_class self) attributes;
    add_new (model_class self) model st).

(** [setattr(model, k, v)] on a stored table instance: a field is
    assigned, a relationship goes to the ORM's instrumentation (see
    [set_attribute]), and any other name is refused by pydantic. *)
Definition setattr (m : Model) (model : gmap string pyval) (k : string)
    (v : pyval) : result (gmap string pyval) :=
  if bool_decide (k ∈ columns m) then Return (<[k := v]> model)
  else if bool_decide (k ∈ relationships m)
  then _ ← SQLModel.set_attribute true m k v;
       Return (SQLModel.assigned m k v model)
  else Raise (ValueError (dq ++ model_name m ++ dq ++ " object has no field "
                          ++ dq ++ k ++ dq)).

(** [update] (lines 91-104).  The flush of [session.add(model)]
    synchronises the instance first, and the instance that is returned is
    the one that was written. *)
Definition update (self : BaseCRUD) (model : gmap string pyval)
    (model_update : Pydantic.BaseModel)
  : Store → Store * result (gmap string pyval) :=
  Transactional (λ st,
    let attributes := extract_attributes_from_schema model_update None in
    let identity := pk model in
    model ← reduce (λ model kv, setattr (model_class self) model kv.1 kv.2)
                   (map_to_list attributes) model;
    let model := synchronize (model_class self) model in
    st' ← add_loaded (model_class self) identity model st;
    Return (model, st')).

(** [delete] (lines 106-114). *)
Definition delete (self : BaseCRUD) (model : gmap string pyval)
  : Store → Store * result () :=
  Transactional (λ st,
    st' ← session_delete (model_class self) model st;
    Return ((), st')).

(** ** Concrete repositories

    The repository classes built on [BaseCRUD] are not among the sources.
    These stand in for them on concrete inputs: one repository per table,
    the one for orders with a join method [_join_order_items] that loads
    the order's items by a joined eager load. *)
Module Shop.
Import Pydantic.

(** A joined eager load of [Order.order_items]: one row per item, and one
    row for an order without items. *)
Definition joinedload_order_items : Loader :=
  {| ld_collection := true;
     ld_rows := λ st row,
       Nat.max 1 (length (filter
         (λ item, sql_eq (item !! "order_id") (default PyNone (row !! "id")) = true)
         (order_items st))) |}.

(** Two of the attributes every table class has besides its own: its
    [__name__], and its [metadata], an object no value equals. *)
Definition inherited (m : Model) (name : string) : option (pyval → bool) :=
  if String.eqb name "__name__"
  then Some (λ v, bool_decide (as_str v = Some (model_name m)))
  else if String.eqb name "metadata" then Some (λ _, false)
  else None.

Definition OrderCRUD : BaseCRUD :=
  {| model_class := Order;
     join_methods := λ name,
       if String.eqb name "_join_order_items"
       then Some (options joinedload_order_items) else None;
     class_attributes := inherited Order |}.

Definition ProductCRUD : BaseCRUD :=
  {| model_class := Product; join_methods := λ _, None;
     class_attributes := inherited Product |}.

Definition OrderItemCRUD : BaseCRUD :=
  {| model_class := OrderItem; join_methods := λ _, None;
     class_attributes := inherited OrderItem |}.

Definition draws (base : N) : Draws :=
  {| uuid4 := λ n, (base + N.of_nat n)%N; datetime_now := Z.of_N base |}.

(** [ProductCreate(name="Widget", description="d", price=9.5, amount=5)]. *)
Definition widget : BaseModel :=
  {| model_fields :=
       list_to_map [("name", SAtom (PyStr "Widget"));
                    ("description", SAtom (PyStr "d"));
                    ("price", SAtom (PyFloat 9.5%float));
                    ("amount", SAtom (PyInt 5))];
     model_fields_set := list_to_set ["name"; "description"; "price"; "amount"] |}.

(** [OrderItemCreate(product_id=p, amount=n)]. *)
Definition item_payload (p : N) (n : Z) : sval :=
  SModel [("amount", SAtom (PyInt n)); ("product_id", SAtom (PyUUID p))]
         ["amount"; "product_id"].

(** [OrderCreate(order_items=[...])]. *)
Definition order_payload (items : list sval) : BaseModel :=
  {| model_fields := list_to_map [("order_items", SList items)];
     model_fields_set := list_to_set ["order_items"] |}.

(** [OrderStatusUpdate(status=s)]. *)
Definition status_update (s : OrderStatus) : BaseModel :=
  {| model_fields := list_to_map [("status", SAtom (PyEnum s))];
     model_fields_set := list_to_set ["status"] |}.

(** A patch that sets the [order] of an item to [None] and nothing else,
    and a payload for an item that gives a product key with
    [product=None]. *)
Definition order_unset : BaseModel :=
  {| model_fields := list_to_map [("order", SAtom PyNone)];
     model_fields_set := list_to_set ["order"] |}.

Definition item_product_unset : BaseModel :=
  {| model_fields := list_to_map [("amount", SAtom (PyInt 1));
                                  ("product_id", SAtom (PyUUID 100));
                                  ("product", SAtom PyNone)];
     model_fields_set := list_to_set ["amount"; "product_id"; "product"] |}.

(** A schema instance on which nothing was set. *)
Definition nothing_set : BaseModel :=
  {| model_fields := ∅; model_fields_set := ∅ |}.

(** The store after a product [100] was created, then an order [200] with
    two items [201] and [202] of that product. *)
Definition with_product : Store := (create ProductCRUD (draws 100) widget empty_store).1.

Definition with_order : Store :=
  (create OrderCRUD (draws 200)
          (order_payload [item_payload 100 2; item_payload 100 3])
          with_product).1.

Definition the_product : gmap string pyval :=
  list_to_map [("id", PyUUID 100); ("name", PyStr "Widget");
               ("description", PyStr "d"); ("price", PyFloat 9.5%float);
               ("amount", PyInt 5)].

(** The first item of the order of [with_order]. *)
Definition first_item : gmap string pyval :=
  list_to_map [("id", PyUUID 201); ("amount", PyInt 2);
               ("order_id", PyUUID 200); ("product_id", PyUUID 100)].

Definition the_order : gmap string pyval :=
  list_to_map [("id", PyUUID 200); ("creation_date", PyDatetime 200);
               ("status", PyEnum created)].

End Shop.

(** ** Vocabulary of the statements *)

(** The join methods of a repository only shape how related rows are
    loaded: they leave the table and the criteria of a statement alone. *)
Definition joins_only_load (self : BaseCRUD) : Prop :=
  ∀ name method query,
    join_methods self name = Some method →
    sel_from (method query) = sel_from query
    ∧ sel_where (method query) = sel_where query.

(** A column is cleared by the flush of an instance when it is the foreign
    key of a many-to-one relationship that the instance holds as [None]. *)
Definition cleared (m : Model) (attrs : gmap string pyval) (column : string)
  : Prop :=
  ∃ r, (r, column) ∈ scalar_relationships m ∧ attrs !! r = Some PyNone.

(** The rows of the repository's table that satisfy [row[field] == value]. *)
Definition matching (self : BaseCRUD) (field : string) (value : pyval)
    (st : Store) : list (gmap string pyval) :=
  filter (λ row, sql_eq (row !! field) value = true)
         (table (model_class self) st).

(** A column of a row refers to a row of a table when it holds the key of
    one. *)
Definition refers_to (row : gmap string pyval) (column : string)
    (target : list (gmap string pyval)) : Prop :=
  ∃ u, row !! column = Some (PyUUID u) ∧ u ∈ pks target.

(** No two rows of a table share a primary key. *)
Definition keys_unique (st : Store) : Prop :=
  ∀ m, NoDup (pks (table m st)).

(** Each reference of an order item is either NULL or the key of an
    existing row. *)
Definition references_hold (st : Store) : Prop :=
  ∀ item, item ∈ order_items st →
    (is_null (item !! "order_id") = true
     ∨ refers_to item "order_id" (orders st))
    ∧ (is_null (item !! "product_id") = true
       ∨ refers_to item "product_id" (products st)).

Definition consistent (st : Store) : Prop :=
  keys_unique st ∧ references_hold st.

(** The writing calls of a repository, and the store a sequence of them
    leaves behind. *)
Inductive Call : Type :=
  | CallCreate (self : BaseCRUD) (d : Draws) (payload : Pydantic.BaseModel)
  | CallUpdate (self : BaseCRUD) (model : gmap string pyval)
               (patch : Pydantic.BaseModel)
  | CallDelete (self : BaseCRUD) (model : gmap string pyval).

Definition run_call (st : Store) (c : Call) : Store :=
  match c with
  | CallCreate self d payload => (create self d payload st).1
  | CallUpdate self model patch => (update self model patch st).1
  | CallDelete self model => (delete self model st).1
  end.

Definition run_calls (calls : list Call) (st : Store) : Store :=
  foldl run_call st calls.

(** A product is created, then an order with one item of it, then the
    product is deleted. *)
Definition product_deleted : list Call :=
  [CallCreate Shop.ProductCRUD (Shop.draws 100) Shop.widget;
   CallCreate Shop.OrderCRUD (Shop.draws 200)
              (Shop.order_payload [Shop.item_payload 100 2]);
   CallDelete Shop.ProductCRUD Shop.the_product].

(** A product is created, then an order item of it through the generic
    repository, outside any order:
    [OrderItemCreate(product_id=100, amount=1)]. *)
Definition item_without_order : list Call :=
  [CallCreate Shop.ProductCRUD (Shop.draws 100) Shop.widget;
   CallCreate Shop.OrderItemCRUD (Shop.draws 300)
              {| Pydantic.model_fields :=
                   list_to_map [("amount", Pydantic.SAtom (PyInt 1));
                                ("product_id", Pydantic.SAtom (PyUUID 100))];
                 Pydantic.model_fields_set :=
                   list_to_set ["amount"; "product_id"] |}].

(** The order item left behind by [product_deleted], and the one created
    by [item_without_order]. *)
Definition orphaned_item : gmap string pyval :=
  list_to_map [("id", PyUUID 201); ("amount", PyInt 2);
               ("order_id", PyUUID 200); ("product_id", PyNone)].

Definition unowned_item : gmap string pyval :=
  list_to_map [("id", PyUUID 300); ("amount", PyInt 1);
               ("product_id", PyUUID 100)].

(** Every row of every table holds a primary key. *)
Definition keys_present (st : Store) : Prop :=
  ∀ m, Forall (λ row, is_Some (pk row)) (table m st).

(** The instance [create] returns for the order of [Shop.with_order]. *)
Definition created_order : Instance :=
  {| i_attrs := Shop.the_order;
     i_order_items :=
       [list_to_map [("id", PyUUID 201); ("amount", PyInt 2);
                     ("order_id", PyUUID 200); ("product_id", PyUUID 100)];
        list_to_map [("id", PyUUID 202); ("amount", PyInt 3);
                     ("order_id", PyUUID 200); ("product_id", PyUUID 100)]] |}.

(** [OrderCreate] payloads whose [order_items] is not a list of schema
    instances: a number, and a list holding a string. *)
Definition order_items_number : Pydantic.BaseModel :=
  {| Pydantic.model_fields :=
       list_to_map [("order_items", Pydantic.SAtom (PyInt 3))];
     Pydantic.model_fields_set := list_to_set ["order_items"] |}.

Definition order_items_string : Pydantic.BaseModel :=
  {| Pydantic.model_fields :=
       list_to_map [("order_items",
                     Pydantic.SList [Shop.item_payload 100 2;
                                     Pydantic.SAtom (PyStr "two widgets")])];
     Pydantic.model_fields_set := list_to_set ["order_items"] |}.

(** * Properties *)

(** ** The result monad *)

Lemma bind_Return {A B : Type} (a : A) (f : A → result B) :
  (Return a ≫= f) = f a.
Proof. reflexivity. Qed.

Lemma bind_Raise {A B : Type} (e : Exn) (f : A → result B) :
  (Raise e ≫= f) = Raise e.
Proof. reflexivity. Qed.

Lemma bind_inr {A B : Type} (r : result A) (f : A → result B) (b : B) :
  r ≫= f = inr b → ∃ a, r = inr a ∧ f a = inr b.
Proof. destruct r as [e|a]; [discriminate | eauto]. Qed.

Lemma fmap_inr {A B : Type} (g : A → B) (r : result A) (b : B) :
  g <$> r = inr b → ∃ a, r = inr a ∧ b = g a.
Proof. destruct r as [e|a]; [discriminate | intros [= <-]; eauto]. Qed.

(** ** Building the statement *)

Lemma optional_join_falsy (self : BaseCRUD) (query : Select) (join_ : pyval) :
  truthy join_ = false → _optional_join self query join_ = Return query.
Proof. intros H. unfold _optional_join. by rewrite H. Qed.

Lemma optional_join_set (self : BaseCRUD) (query : Select) (x : pyval)
    (l : list pyval) :
  _optional_join self query (PySet (x :: l))
  = reduce (_add_join_to_query self) (x :: l) query.
Proof. reflexivity. Qed.

Lemma add_join_registered (self : BaseCRUD) (query : Select) (name : string)
    (method : Select → Select) :
  join_methods self ("_join_" ++ name) = Some method →
  _add_join_to_query self query (PyStr name) = Return (method query).
Proof.
  intros H. unfold _add_join_to_query, getattr_self. simpl. by rewrite H.
Qed.

Lemma add_join_unregistered (self : BaseCRUD) (query : Select) (name : string) :
  join_methods self ("_join_" ++ name) = None →
  _add_join_to_query self query (PyStr name)
  = Raise (UnsupportedRelationship name).
Proof.
  intros H. unfold _add_join_to_query, getattr_self. simpl. by rewrite H.
Qed.

(** A reduction over names stops at the first one without a join method. *)
Lemma reduce_joins_unregistered (self : BaseCRUD) (names : list string) :
  ∀ query,
  Exists (λ name, join_methods self ("_join_" ++ name) = None) names →
  ∃ name, name ∈ names
          ∧ join_methods self ("_join_" ++ name) = None
          ∧ reduce (_add_join_to_query self) (PyStr <$> names) query
            = Raise (UnsupportedRelationship name).
Proof.
  induction names as [|n names IH]; intros query Hex.
  - inversion Hex.
  - destruct (join_methods self ("_join_" ++ n)) as [method|] eqn:Hn.
    + apply Exists_cons in Hex as [Hex|Hex]; [congruence|].
      destruct (IH (method query) Hex) as (name & Hin & Hnone & Hred).
      exists name. split; [by right|]. split; [done|].
      simpl. by rewrite (add_join_registered _ _ _ _ Hn), bind_Return.
    + exists n. split; [by left|]. split; [done|].
      simpl. by rewrite (add_join_unregistered _ _ _ Hn).
Qed.

(** A reduction over registered names succeeds and applies each method. *)
Lemma reduce_joins_registered (self : BaseCRUD) (names : list string) :
  ∀ query,
  Forall (λ name, is_Some (join_methods self ("_join_" ++ name))) names →
  ∃ query', reduce (_add_join_to_query self) (PyStr <$> names) query
            = Return query'.
Proof.
  induction names as [|n names IH]; intros query Hall.
  - by exists query.
  - apply Forall_cons in Hall as [[method Hn] Hall].
    destruct (IH (method query) Hall) as [query' Hred].
    exists query'. simpl.
    by rewrite (add_join_registered _ _ _ _ Hn), bind_Return.
Qed.

Lemma reduce_app {A B : Type} (f : A → B → result A) (l1 l2 : list B) :
  ∀ a, reduce f (l1 ++ l2) a = (a' ← reduce f l1 a; reduce f l2 a').
Proof.
  induction l1 as [|x l1 IH]; intros a; [done|].
  simpl. destruct (f a x) as [e|a1]; [done|]. simpl. apply IH.
Qed.

(** ** Running a statement *)

Lemma bind_singleton {A : Type} (l : list A) : (x ← l; [x]) = l.
Proof. induction l as [|x l IH]; [done|]. rewrite bind_cons. simpl. by rewrite IH. Qed.

(** Without loader options every matching row comes back once. *)
Lemma fetch_no_options (st : Store) (query : Select) :
  sel_options query = [] →
  fetch st query
  = filter (λ row, row_matches st query row = true) (table (sel_from query) st).
Proof.
  intros H. unfold fetch, fanout. rewrite H. simpl. apply bind_singleton.
Qed.

Lemma rows_of_scalars_plain (st : Store) (query : Select) :
  sel_options query = [] →
  rows_of (scalars st query) = Return (fetch st query).
Proof.
  intros H. unfold rows_of, scalars, scalars_of, execute. simpl.
  rewrite H. simpl. by destruct (fetch st query).
Qed.

(** On a column, [_get_by] adds the comparison of the column. *)
Lemma get_by_column (self : BaseCRUD) (query : Select) (field : string)
    (value : pyval) :
  field ∈ columns (model_class self) →
  _get_by self query field value = Return (where_ field value query).
Proof.
  intros Hfield. unfold _get_by, getattr_model_class.
  by rewrite bool_decide_eq_true_2.
Qed.

(** Whatever the name, [_get_by] adds one criterion and leaves the loader
    options and the table alone. *)
Lemma get_by_clause (self : BaseCRUD) (query query' : Select)
    (field : string) (value : pyval) :
  _get_by self query field value = Return query' →
  ∃ criterion, query' = where_clause criterion query.
Proof.
  unfold _get_by.
  destruct (getattr_model_class self field ≫= _) as [e|criterion];
    [discriminate|].
  intros [= <-]. by exists criterion.
Qed.

(** [_get_by] raises for a name the class does not have, and for a
    relationship compared with a value that is not [None]. *)
Lemma get_by_error (self : BaseCRUD) (query : Select) (field : string)
    (value : pyval) (e : Exn) :
  _get_by self query field value = Raise e →
  e = AttributeError field
  ∨ (∃ msg, e = ArgumentError msg)
  ∨ (∃ msg, e = InvalidRequestError msg).
Proof.
  unfold _get_by, getattr_model_class. case_bool_decide; [discriminate|].
  destruct (assoc field (scalar_relationships _)) as [fk|].
  { destruct value; simpl; try discriminate; intros [= <-]; eauto. }
  destruct (assoc field (collection_relationships _)) as [[child fk]|].
  { destruct value; simpl; try discriminate; intros [= <-]; eauto. }
  destruct (String.eqb field "__tablename__"); [discriminate|].
  destruct (class_attributes self field); [discriminate|].
  intros [= <-]. by left.
Qed.

Lemma get_by_query_options (self : BaseCRUD) (query query' : Select)
    (field : string) (value : pyval) :
  field ∈ columns (model_class self) →
  _get_by self query field value = Return query' →
  query' = where_ field value query.
Proof. intros Hfield. rewrite get_by_column by done. by intros [= <-]. Qed.

(** [_one_or_none] hands back [None] or one entity of the raw rows. *)
Lemma one_or_none_shape (st : Store) (query : Select) (r : Returned) :
  _one_or_none st query = Return r →
  (r = RNone ∧ fetch st query = [])
  ∨ (∃ row, r = REntity row ∧ fetch st query = [row]).
Proof.
  unfold _one_or_none, one_or_none, rows_of, scalars, scalars_of, execute.
  simpl. destruct (fetch st query) as [|row [|row' rows]]; simpl.
  - intros [= <-]. by left.
  - destruct (existsb _ _); simpl; [discriminate|].
    intros [= <-]. right. by exists row.
  - destruct (existsb _ _); discriminate.
Qed.

Lemma one_or_none_not_InvalidInput (st : Store) (query : Select) :
  sel_options query = [] → _one_or_none st query ≠ Raise InvalidInput.
Proof.
  intros H. unfold _one_or_none, one_or_none.
  rewrite (rows_of_scalars_plain _ _ H), bind_Return.
  by destruct (fetch st query) as [|row [|row' rows]].
Qed.

(** C10. A falsy relationship argument ([None], the empty set, the empty
    string, the empty list, ...) is never inspected further: no join is
    applied to any statement, so [get_by] runs the bare filtered statement
    and does not raise the Invalid-Input error even when the argument is
    not a set.  With [unique] off, the empty set still goes through
    [_all_unique], the deduplicating path, while [None] goes through the
    plain [_all]. *)
Theorem get_by_falsy_join (self : BaseCRUD) (field : string)
    (value join_ : pyval) (unique : bool) (st : Store) :
  truthy join_ = false →
  (∀ query, _optional_join self query join_ = Return query)
  ∧ get_by self field value join_ unique st
    = (query ← _get_by self (select (model_class self)) field value;
       if unique then _one_or_none st query
       else if is_not_None join_ then RList <$> _all_unique st query
       else RList <$> _all st query)
  ∧ get_by self field value join_ unique st ≠ Raise InvalidInput
  ∧ get_by self field value (PySet []) false st
    = (query ← _get_by self (select (model_class self)) field value;
       RList <$> _all_unique st query)
  ∧ get_by self field value PyNone false st
    = (query ← _get_by self (select (model_class self)) field value;
       RList <$> _all st query).
Proof.
  intros Hfalsy.
  assert (Heq : get_by self field value join_ unique st
    = (query ← _get_by self (select (model_class self)) field value;
       if unique then _one_or_none st query
       else if is_not_None join_ then RList <$> _all_unique st query
       else RList <$> _all st query)).
  { unfold get_by, _query. by rewrite (optional_join_falsy _ _ _ Hfalsy). }
  split; [intros query; by apply optional_join_falsy|].
  split; [exact Heq|].
  split; [|by split].
  rewrite Heq.
  destruct (_get_by self (select (model_class self)) field value)
    as [e|query] eqn:Hq.
  { apply get_by_error in Hq as [->|[[msg ->]|[msg ->]]]; discriminate. }
  apply get_by_clause in Hq as [criterion ->]. rewrite bind_Return.
  destruct unique.
  - by apply one_or_none_not_InvalidInput.
  - destruct (is_not_None join_).
    + unfold _all_unique, all, rows_of. simpl. discriminate.
    + unfold _all, all. rewrite rows_of_scalars_plain by done. discriminate.
Qed.

Lemma get_by_falsy_join_witness :
  truthy (PyStr "") = false
  ∧ get_by Shop.OrderCRUD "id" (PyUUID 200) (PyStr "") false Shop.with_order
    ≠ Raise InvalidInput.
Proof.
  split; [reflexivity|].
  apply (get_by_falsy_join Shop.OrderCRUD "id" (PyUUID 200) (PyStr "") false
           Shop.with_order).
  reflexivity.
Defined.

(** C4, as amended.  A relationship argument that is truthy and is not a
    set (a non-empty string, a non-empty list, ...) is rejected with the
    Invalid-Input error before anything is iterated, by [_optional_join]
    and so by every [get_by].  A set is iterated, and an element that is
    not a string is rejected only when the reduction reaches it, by the
    [TypeError] of the name concatenation. *)
Theorem optional_join_rejects_non_set (self : BaseCRUD) (join_ : pyval) :
  truthy join_ = true → isinstance_set join_ = false →
  (∀ query, _optional_join self query join_ = Raise InvalidInput)
  ∧ (∀ field value unique st,
       get_by self field value join_ unique st = Raise InvalidInput)
  ∧ (∀ query names v rest,
       Forall (λ name, is_Some (join_methods self ("_join_" ++ name))) names →
       as_str v = None →
       ∃ msg, _optional_join self query (PySet ((PyStr <$> names) ++ v :: rest)%list)
              = Raise (TypeError msg)).
Proof.
  intros Htruthy Hset.
  assert (H : ∀ query, _optional_join self query join_ = Raise InvalidInput).
  { intros query. unfold _optional_join. by rewrite Htruthy, Hset. }
  split; [exact H|]. split.
  - intros field value unique st. unfold get_by, _query. by rewrite H.
  - intros query names v rest Hreg Hv.
    exists (concat_msg v).
    destruct (reduce_joins_registered self names query Hreg) as [query' Hq].
    assert (Hne : ∃ x l, ((PyStr <$> names) ++ v :: rest)%list = x :: l).
    { destruct names; simpl; eauto. }
    destruct Hne as (x & l & Hxl). rewrite Hxl, optional_join_set, <- Hxl.
    rewrite reduce_app, Hq, bind_Return. simpl.
    unfold _add_join_to_query. by rewrite Hv.
Qed.

Lemma optional_join_rejects_non_set_witness :
  truthy (PyStr "order_items") = true
  ∧ isinstance_set (PyStr "order_items") = false
  ∧ get_by Shop.OrderCRUD "id" (PyUUID 200) (PyStr "order_items") true
           Shop.with_order
    = Raise InvalidInput.
Proof.
  split; [reflexivity|]. split; [reflexivity|].
  apply (optional_join_rejects_non_set Shop.OrderCRUD (PyStr "order_items"));
    reflexivity.
Defined.

(** C4, as stated, fails: the empty string is supplied, is not a set of
    strings, and is accepted as if no relationship had been requested. *)
Lemma falsy_non_set_join_accepted :
  is_not_None (PyStr "") = true
  ∧ isinstance_set (PyStr "") = false
  ∧ _optional_join Shop.OrderCRUD (select Order) (PyStr "")
    = Return (select Order)
  ∧ get_by Shop.OrderCRUD "id" (PyUUID 200) (PyStr "") false Shop.with_order
    = Return (RList [Shop.the_order])
  ∧ get_by Shop.OrderCRUD "id" (PyUUID 200) (PyStr "") false Shop.with_order
    ≠ Raise InvalidInput.
Proof.
  split; [reflexivity|]. split; [reflexivity|]. split; [reflexivity|].
  assert (H : get_by Shop.OrderCRUD "id" (PyUUID 200) (PyStr "") false
                Shop.with_order = Return (RList [Shop.the_order])).
  { vm_compute. reflexivity. }
  split; [exact H|]. rewrite H. discriminate.
Qed.

(** C5. A relationship name without a join method on the repository makes
    [_add_join_to_query] fail with the Unsupported-Relationship error; a
    set of names holding such a name makes every query-building operation
    fail with that error, for the first such name in iteration order. *)
Theorem unregistered_join_unsupported (self : BaseCRUD) (names : list string) :
  Exists (λ name, join_methods self ("_join_" ++ name) = None) names →
  (∀ query name, join_methods self ("_join_" ++ name) = None →
     _add_join_to_query self query (PyStr name)
     = Raise (UnsupportedRelationship name))
  ∧ ∃ name, name ∈ names
      ∧ join_methods self ("_join_" ++ name) = None
      ∧ _query self (PySet (PyStr <$> names))
        = Raise (UnsupportedRelationship name)
      ∧ (∀ field value unique st,
           get_by self field value (PySet (PyStr <$> names)) unique st
           = Raise (UnsupportedRelationship name))
      ∧ (∀ id st,
           get_by_id self id (PySet (PyStr <$> names)) st
           = Raise (UnsupportedRelationship name)).
Proof.
  intros Hex. split; [intros; by apply add_join_unregistered|].
  destruct (reduce_joins_unregistered self names (select (model_class self)) Hex)
    as (name & Hin & Hnone & Hred).
  assert (Hq : _query self (PySet (PyStr <$> names))
               = Raise (UnsupportedRelationship name)).
  { unfold _query. destruct names as [|n names]; [inversion Hex|].
    exact Hred. }
  exists name. repeat split; try done.
  - intros. unfold get_by. by rewrite Hq.
  - intros. unfold get_by_id, get_by. by rewrite Hq.
Qed.

Lemma unregistered_join_unsupported_witness :
  Exists (λ name, join_methods Shop.OrderCRUD ("_join_" ++ name) = None)
         ["order_items"; "unknown"]
  ∧ get_by Shop.OrderCRUD "id" (PyUUID 200)
           (PySet [PyStr "order_items"; PyStr "unknown"]) false Shop.with_order
    = Raise (UnsupportedRelationship "unknown").
Proof.
  assert (Hex : Exists (λ name, join_methods Shop.OrderCRUD ("_join_" ++ name) = None)
                       ["order_items"; "unknown"]).
  { apply Exists_cons_tl, Exists_cons_hd. reflexivity. }
  split; [exact Hex|].
  destruct (unregistered_join_unsupported Shop.OrderCRUD
              ["order_items"; "unknown"] Hex)
    as (_ & name & Hin & Hnone & _ & Hget & _).
  etrans; [exact (Hget "id" (PyUUID 200) false Shop.with_order)|].
  apply list_elem_of_In in Hin. simpl in Hin.
  destruct Hin as [<-|[<-|[]]]; [discriminate Hnone | reflexivity].
Defined.

(** ** What a query can return *)

Lemma reduce_joins_preserve (self : BaseCRUD) (l : list pyval) :
  joins_only_load self →
  ∀ query query',
  reduce (_add_join_to_query self) l query = Return query' →
  sel_from query' = sel_from query ∧ sel_where query' = sel_where query.
Proof.
  intros Hjoins. induction l as [|x l IH]; intros query query'; simpl.
  - by intros [= <-].
  - intros H. apply bind_inr in H as (q1 & Hx & Hl).
    destruct (IH _ _ Hl) as [-> ->].
    unfold _add_join_to_query in Hx.
    destruct (as_str x) as [name|]; [|discriminate].
    apply bind_inr in Hx as (method & Hm & [= <-]).
    unfold getattr_self in Hm.
    destruct (join_methods self _) as [m|] eqn:Hjm; [|discriminate].
    injection Hm as <-. exact (Hjoins _ _ _ Hjm).
Qed.

Lemma query_shape (self : BaseCRUD) (join_ : pyval) (query : Select) :
  joins_only_load self →
  _query self join_ = Return query →
  sel_from query = model_class self ∧ sel_where query = [].
Proof.
  intros Hjoins. unfold _query, _optional_join.
  destruct (truthy join_); simpl; [|by intros [= <-]].
  destruct (isinstance_set join_); simpl; [|discriminate].
  intros H. apply bind_inr in H as (names & _ & Hred).
  by destruct (reduce_joins_preserve self names Hjoins _ _ Hred) as [-> ->].
Qed.

Lemma row_matches_where (st : Store) (query : Select) (field : string) (value : pyval)
    (row : gmap string pyval) :
  sel_where query = [] →
  row_matches st (where_ field value query) row = sql_eq (row !! field) value.
Proof.
  intros H. unfold row_matches, where_. simpl. rewrite H. simpl.
  apply andb_true_r.
Qed.

Lemma elem_of_fetch (st : Store) (query : Select) (row : gmap string pyval) :
  row ∈ fetch st query →
  row ∈ table (sel_from query) st ∧ row_matches st query row = true.
Proof.
  unfold fetch. intros H. apply list_elem_of_bind in H as (r & Hrep & Hr).
  apply elem_of_replicate in Hrep as [-> _].
  by apply list_elem_of_filter in Hr as [? ?].
Qed.

Lemma fetch_nil (st : Store) (query : Select) :
  Forall (λ row, row_matches st query row = false) (table (sel_from query) st) →
  fetch st query = [].
Proof.
  intros Hall. unfold fetch.
  assert (Hf : filter (λ row, row_matches st query row = true)
                      (table (sel_from query) st) = []).
  { induction Hall as [|row rows Hrow _ IH]; [done|].
    rewrite filter_cons. case_decide; [congruence | exact IH]. }
  by rewrite Hf.
Qed.

(** The raw rows of the filtered statement of [get_by] are rows of the
    repository's table that satisfy the filter. *)
Lemma fetch_get_by (self : BaseCRUD) (join_ : pyval) (q0 query : Select)
    (field : string) (value : pyval) (st : Store) (row : gmap string pyval) :
  joins_only_load self →
  field ∈ columns (model_class self) →
  _query self join_ = Return q0 →
  _get_by self q0 field value = Return query →
  row ∈ fetch st query → row ∈ matching self field value st.
Proof.
  intros Hjoins Hfield Hq0 Hq Hrow.
  destruct (query_shape _ _ _ Hjoins Hq0) as [Hfrom Hwhere].
  apply get_by_query_options in Hq as ->; [|done].
  apply elem_of_fetch in Hrow as [Hin Hm].
  rewrite row_matches_where in Hm by done.
  unfold matching. apply list_elem_of_filter. split; [done|].
  simpl in Hin. by rewrite Hfrom in Hin.
Qed.

Lemma fetch_get_by_nil (self : BaseCRUD) (join_ : pyval) (q0 : Select)
    (field : string) (value : pyval) (st : Store) :
  joins_only_load self →
  _query self join_ = Return q0 →
  matching self field value st = [] →
  fetch st (where_ field value q0) = [].
Proof.
  intros Hjoins Hq0 Hnone.
  destruct (query_shape _ _ _ Hjoins Hq0) as [Hfrom Hwhere].
  apply fetch_nil. simpl. rewrite Hfrom. apply Forall_forall. intros row Hin.
  rewrite row_matches_where by done.
  destruct (sql_eq (row !! field) value) eqn:E; [|done].
  assert (Hm : row ∈ matching self field value st).
  { unfold matching. by apply list_elem_of_filter. }
  rewrite Hnone in Hm. by apply elem_of_nil in Hm.
Qed.

(** The shape of a [get_by] with [unique=True] that returns. *)
Lemma get_by_unique_shape (self : BaseCRUD) (field : string)
    (value join_ : pyval) (st : Store) (r : Returned) :
  get_by self field value join_ true st = Return r →
  ∃ q0 query, _query self join_ = Return q0
    ∧ _get_by self q0 field value = Return query
    ∧ ((r = RNone ∧ fetch st query = [])
       ∨ ∃ row, r = REntity row ∧ fetch st query = [row]).
Proof.
  intros H. unfold get_by in H.
  apply bind_inr in H as (q0 & Hq0 & H).
  apply bind_inr in H as (query & Hq & H).
  exists q0, query. split; [done|]. split; [done|].
  by apply one_or_none_shape.
Qed.

Lemma get_by_unique_one_or_none (self : BaseCRUD) (field : string)
    (value join_ : pyval) (st : Store) (r : Returned) :
  get_by self field value join_ true st = Return r →
  r = RNone ∨ ∃ row, r = REntity row.
Proof.
  intros H.
  destruct (get_by_unique_shape _ _ _ _ _ _ H)
    as (_ & _ & _ & _ & [[-> _]|(row & -> & _)]); eauto.
Qed.

Lemma get_by_unique_no_match (self : BaseCRUD) (field : string)
    (value join_ : pyval) (st : Store) (q0 : Select) :
  joins_only_load self →
  _query self join_ = Return q0 →
  field ∈ columns (model_class self) →
  matching self field value st = [] →
  get_by self field value join_ true st = Return RNone.
Proof.
  intros Hjoins Hq0 Hfield Hnone.
  unfold get_by. rewrite Hq0, bind_Return. rewrite get_by_column by done.
  rewrite bind_Return.
  unfold _one_or_none, one_or_none, rows_of, scalars, scalars_of, execute.
  simpl. by rewrite (fetch_get_by_nil self join_ q0 field value st).
Qed.

(** What [_one_or_none] does, by the raw rows of the statement. *)
Lemma one_or_none_cases (st : Store) (query : Select) :
  _one_or_none st query
  = match fetch st query with
    | [] => Return RNone
    | row :: rows =>
        if existsb ld_collection (sel_options query)
        then Raise (InvalidRequestError unique_msg)
        else match rows with
             | [] => Return (REntity row)
             | _ :: _ => Raise MultipleResultsFound
             end
    end.
Proof.
  unfold _one_or_none, one_or_none, rows_of, scalars, scalars_of, execute.
  simpl. destruct (fetch st query) as [|row [|row' rows]]; simpl;
    try done; by destruct (existsb ld_collection (sel_options query)).
Qed.

Lemma joins_only_load_OrderCRUD : joins_only_load Shop.OrderCRUD.
Proof.
  intros name method query. simpl.
  destruct (String.eqb name "_join_order_items"); [|discriminate].
  by intros [= <-].
Qed.

Lemma joins_only_load_no_joins (m : Model)
    (attributes : string → option (pyval → bool)) :
  joins_only_load {| model_class := m; join_methods := λ _, None;
                     class_attributes := attributes |}.
Proof. intros name method query. discriminate. Qed.

(** C1. [get_by] with [unique=True], by the raw rows its statement
    yields.  It never hands back a list.  With no raw row it returns
    [None] and raises nothing.  It returns an entity exactly when the
    statement yields one raw row and holds no joined load of a collection;
    the entity is that row.  In every other case it returns nothing: two or
    more raw rows raise, and under a joined load of a collection one raw
    row is enough to raise, because [unique()] is not applied.  On a column
    (when the join methods only load) every raw row is a stored row that
    satisfies the filter, so the entity returned is one, and no matching
    row means [None]. *)
Theorem get_by_unique_at_most_one (self : BaseCRUD) (field : string)
    (value join_ : pyval) (st : Store) (q0 query : Select) :
  _query self join_ = Return q0 →
  _get_by self q0 field value = Return query →
  (∀ l, get_by self field value join_ true st ≠ Return (RList l))
  ∧ (fetch st query = [] →
     get_by self field value join_ true st = Return RNone)
  ∧ (∀ row, get_by self field value join_ true st = Return (REntity row)
            ↔ fetch st query = [row]
              ∧ existsb ld_collection (sel_options query) = false)
  ∧ ((2 ≤ length (fetch st query))%nat →
     get_by self field value join_ true st
     = Raise (if existsb ld_collection (sel_options query)
              then InvalidRequestError unique_msg
              else MultipleResultsFound))
  ∧ (fetch st query ≠ [] →
     existsb ld_collection (sel_options query) = true →
     get_by self field value join_ true st
     = Raise (InvalidRequestError unique_msg))
  ∧ (joins_only_load self →
     field ∈ columns (model_class self) →
     (∀ row, row ∈ fetch st query → row ∈ matching self field value st)
     ∧ (matching self field value st = [] →
        get_by self field value join_ true st = Return RNone)
     ∧ (∀ row, get_by self field value join_ true st = Return (REntity row) →
               row ∈ matching self field value st)).
Proof.
  intros Hq0 Hq.
  assert (Hget : get_by self field value join_ true st
                 = _one_or_none st query).
  { unfold get_by. by rewrite Hq0, bind_Return, Hq, bind_Return. }
  rewrite Hget, one_or_none_cases.
  assert (Hrows : joins_only_load self → field ∈ columns (model_class self) →
                  ∀ row, row ∈ fetch st query →
                         row ∈ matching self field value st).
  { intros Hjoins Hfield row.
    by apply (fetch_get_by self join_ q0 query field value st row). }
  destruct (fetch st query) as [|row [|row' rows]] eqn:Hf;
    destruct (existsb ld_collection (sel_options query)) eqn:Hld;
    (split; [intros l; discriminate|]);
    (split; [try done|]);
    (split; [intros r; split; [try discriminate | intros [? ?]; try discriminate]|]);
    try (split; [simpl; intros; try lia; done|]);
    try (split; [intros; done|]).
  all: try (intros Hjoins Hfield; split; [by apply Hrows|];
            split; [try done|]; try discriminate).
  all: try (intros [= <-]; split; [done|done]).
  all: try (by injection H as <-).
  all: try (intros Hnone; exfalso;
            assert (Hin : row ∈ matching self field value st)
              by (apply Hrows; [done|done|by left]);
            rewrite Hnone in Hin; by apply elem_of_nil in Hin).
  all: try (intros r [= <-]; apply Hrows; [done|done|by left]).
Qed.

Lemma get_by_unique_at_most_one_witness :
  _query Shop.OrderCRUD (PySet [PyStr "order_items"])
  = Return (options Shop.joinedload_order_items (select Order))
  ∧ _get_by Shop.OrderCRUD
            (options Shop.joinedload_order_items (select Order))
            "id" (PyUUID 7)
    = Return (where_ "id" (PyUUID 7)
                (options Shop.joinedload_order_items (select Order)))
  ∧ get_by Shop.OrderCRUD "id" (PyUUID 7) (PySet [PyStr "order_items"]) true
           Shop.with_order
    = Return RNone.
Proof.
  assert (Hq0 : _query Shop.OrderCRUD (PySet [PyStr "order_items"])
                = Return (options Shop.joinedload_order_items (select Order)))
    by reflexivity.
  assert (Hq : _get_by Shop.OrderCRUD
                 (options Shop.joinedload_order_items (select Order))
                 "id" (PyUUID 7)
               = Return (where_ "id" (PyUUID 7)
                           (options Shop.joinedload_order_items
                                    (select Order))))
    by reflexivity.
  split; [exact Hq0|]. split; [exact Hq|].
  destruct (get_by_unique_at_most_one Shop.OrderCRUD "id" (PyUUID 7)
              (PySet [PyStr "order_items"]) Shop.with_order _ _ Hq0 Hq)
    as (_ & Hnone & _).
  apply Hnone. vm_compute. reflexivity.
Defined.

(** What happens instead of returning several entities: without joins, two
    or more matching rows raise [MultipleResultsFound]. *)
Lemma get_by_unique_many_rows (self : BaseCRUD) (field : string)
    (value : pyval) (st : Store) (r1 r2 : gmap string pyval)
    (rows : list (gmap string pyval)) :
  field ∈ columns (model_class self) →
  matching self field value st = r1 :: r2 :: rows →
  get_by self field value PyNone true st = Raise MultipleResultsFound.
Proof.
  intros Hfield Hrows. unfold get_by, _query.
  rewrite optional_join_falsy by done. rewrite bind_Return. rewrite get_by_column by done.
  rewrite bind_Return.
  unfold _one_or_none, one_or_none.
  rewrite rows_of_scalars_plain by done. rewrite bind_Return.
  rewrite fetch_no_options by done. simpl.
  assert (Hf : filter (λ row, row_matches st (where_ field value (select (model_class self))) row = true)
                      (table (model_class self) st)
               = matching self field value st).
  { unfold matching. apply list_filter_iff. intros row.
    by rewrite row_matches_where. }
  by rewrite Hf, Hrows.
Qed.

(** One stored order has the key [200].  Asked for with the joined eager
    load of its items, it is not returned: the raw rows of the order query
    are refused for want of [unique()]. *)
Example get_by_unique_joined_order :
  matching Shop.OrderCRUD "id" (PyUUID 200) Shop.with_order = [Shop.the_order]
  ∧ get_by Shop.OrderCRUD "id" (PyUUID 200) (PySet [PyStr "order_items"]) true
           Shop.with_order
    = Raise (InvalidRequestError unique_msg).
Proof. split; vm_compute; reflexivity. Qed.

(** The database compares numbers by value: the items of amount [2] are
    found by the float [2.0]. *)
Example get_by_integer_column_float :
  get_by Shop.OrderItemCRUD "amount" (PyFloat 2%float) PyNone false
         Shop.with_order
  = Return (RList [Shop.first_item]).
Proof. vm_compute. reflexivity. Qed.

(** ** The uniquing filter *)

Lemma unique_from_spec (rows : list (gmap string pyval)) :
  ∀ seen,
  NoDup (pk <$> unique_from seen rows)
  ∧ (∀ row, row ∈ unique_from seen rows → row ∈ rows ∧ pk row ∉ seen)
  ∧ (∀ row, row ∈ rows → pk row ∈ seen ∨ pk row ∈ pk <$> unique_from seen rows).
Proof.
  induction rows as [|r rows IH]; intros seen; simpl.
  - split; [constructor|]. split; intros row H; by apply elem_of_nil in H.
  - case_bool_decide as Hseen.
    + destruct (IH seen) as (Hnd & Hsub & Hcov).
      split; [done|]. split.
      * intros row H. destruct (Hsub row H). split; [by right | done].
      * intros row H. apply elem_of_cons in H as [->|H]; [by left | by apply Hcov].
    + destruct (IH (pk r :: seen)) as (Hnd & Hsub & Hcov).
      split; [|split].
      * rewrite fmap_cons. constructor; [|done].
        intros H. apply list_elem_of_fmap in H as (row & Heq & Hin).
        destruct (Hsub row Hin) as [_ Hnot]. apply Hnot. rewrite Heq. by left.
      * intros row H. apply elem_of_cons in H as [->|H]; [split; [by left | done]|].
        destruct (Hsub row H) as [Hin Hnot]. split; [by right|].
        intros Hs. apply Hnot. by right.
      * intros row H. rewrite fmap_cons.
        apply elem_of_cons in H as [->|H]; [right; by left|].
        destruct (Hcov row H) as [Hs|Hs]; [|right; by right].
        apply elem_of_cons in Hs as [->|Hs]; [right; by left | by left].
Qed.

Lemma all_unique_spec (st : Store) (query : Select) :
  _all_unique st query = Return (unique_from [] (fetch st query)).
Proof. reflexivity. Qed.

(** C8. With [unique=False] and a non-empty set of relationships, the list
    [get_by] returns holds no entity twice, whatever number of rows the
    joins produce for one parent: entities are told apart by their primary
    key, every returned entity is one of the raw rows, and every raw row is
    represented.  The call returns whenever the statement can be built. *)
Theorem get_by_relationships_no_duplicates (self : BaseCRUD) (field : string)
    (value : pyval) (names : list pyval) (st : Store) :
  names ≠ [] →
  (∀ r, get_by self field value (PySet names) false st = Return r →
        ∃ l, r = RList l ∧ NoDup (pk <$> l))
  ∧ (∀ q0, _query self (PySet names) = Return q0 →
           field ∈ columns (model_class self) →
           ∃ l, get_by self field value (PySet names) false st = Return (RList l)
                ∧ NoDup (pk <$> l)
                ∧ (∀ row, row ∈ l → row ∈ fetch st (where_ field value q0))
                ∧ (∀ row, row ∈ fetch st (where_ field value q0) →
                          pk row ∈ pk <$> l)).
Proof.
  intros Hne. split.
  - intros r H. unfold get_by in H.
    apply bind_inr in H as (q0 & Hq0 & H).
    apply bind_inr in H as (query & Hq & H).
    change (RList <$> _all_unique st query = Return r) in H.
    apply fmap_inr in H as (l & Hl & ->).
    rewrite all_unique_spec in Hl. injection Hl as <-.
    eexists. split; [done|]. apply unique_from_spec.
  - intros q0 Hq0 Hfield.
    exists (unique_from [] (fetch st (where_ field value q0))).
    destruct (unique_from_spec (fetch st (where_ field value q0)) [])
      as (Hnd & Hsub & Hcov).
    split; [|split; [done|split]].
    + unfold get_by. rewrite Hq0, bind_Return. rewrite get_by_column by done. by rewrite bind_Return.
    + intros row H. by apply Hsub.
    + intros row H. destruct (Hcov row H) as [Hs|Hs]; [|done].
      by apply elem_of_nil in Hs.
Qed.

Lemma get_by_relationships_no_duplicates_witness :
  [PyStr "order_items"] ≠ []
  ∧ length (fetch Shop.with_order
              (where_ "id" (PyUUID 200)
                 (options Shop.joinedload_order_items (select Order)))) = 2
  ∧ ∃ l, get_by Shop.OrderCRUD "id" (PyUUID 200) (PySet [PyStr "order_items"])
                false Shop.with_order
         = Return (RList l)
         ∧ NoDup (pk <$> l).
Proof.
  split; [discriminate|]. split; [reflexivity|].
  destruct (get_by_relationships_no_duplicates Shop.OrderCRUD "id" (PyUUID 200)
              [PyStr "order_items"] Shop.with_order) as [_ H]; [discriminate|].
  destruct (H (options Shop.joinedload_order_items (select Order)))
    as (l & Hl & Hnd & _); [reflexivity | apply list_elem_of_here |].
  exists l. split; [exact Hl | exact Hnd].
Defined.

(** ** Keys, tables and the unit of work *)

Lemma sql_eq_uuid (c : option pyval) (u : N) :
  sql_eq c (PyUUID u) = true ↔ c = Some (PyUUID u).
Proof.
  unfold sql_eq. destruct c as [[]|]; simpl; split; try done.
  - intros H. apply N.eqb_eq in H. by subst.
  - intros [= ->]. apply N.eqb_refl.
Qed.

Lemma pk_Some (row : gmap string pyval) (u : N) :
  pk row = Some u ↔ row !! "id" = Some (PyUUID u).
Proof.
  unfold pk. destruct (row !! "id") as [[]|]; split; try done.
  - by intros [= ->].
  - by intros [= ->].
Qed.

Lemma elem_of_pks (rows : list (gmap string pyval)) (u : N) :
  u ∈ pks rows ↔ ∃ row, row ∈ rows ∧ pk row = Some u.
Proof. unfold pks. apply list_elem_of_omap. Qed.

Lemma table_set_table (m m' : Model) (rows : list (gmap string pyval))
    (st : Store) :
  table m' (set_table m rows st) = if decide (m = m') then rows else table m' st.
Proof. by destruct m, m'. Qed.

Lemma Transactional_inr {A : Type} (body : Store → result (A * Store))
    (st st' : Store) (a : A) :
  Transactional body st = (st', inr a) ↔ body st = inr (a, st').
Proof.
  unfold Transactional. destruct (body st) as [e|[a' st1]]; split; try done.
  - by intros [= -> ->].
  - by intros [= -> ->].
Qed.


Lemma insert_row_inv (m : Model) (row : gmap string pyval) (st st' : Store) :
  insert_row m row st = Return st' →
  ∃ u, pk row = Some u
       ∧ (u ∉ pks (table m st))
       ∧ null_free m row = true
       ∧ fk_holds st m row = true
       ∧ st' = set_table m (table m st ++ [row])%list st.
Proof.
  unfold insert_row. destruct (bindable m row); simpl; [|discriminate].
  destruct (pk row) as [u|]; [|discriminate].
  case_bool_decide; [discriminate|].
  destruct (null_free m row); simpl; [|discriminate].
  destruct (fk_holds st m row); simpl; [|discriminate].
  intros [= <-]. by exists u.
Qed.

Lemma reduce_insert_items_tables (items : list (gmap string pyval)) :
  ∀ st st',
  reduce (λ s item, insert_row OrderItem item s) items st = Return st' →
  ∀ m, m ≠ OrderItem → table m st' = table m st.
Proof.
  induction items as [|item items IH]; intros st st'; simpl.
  - by intros [= <-].
  - intros H m Hm. apply bind_inr in H as (st1 & H1 & H2).
    rewrite (IH _ _ H2 m Hm).
    apply insert_row_inv in H1 as (u & _ & _ & _ & _ & ->).
    rewrite table_set_table. by destruct (decide (OrderItem = m)).
Qed.

Lemma instantiate_children (d : Draws) (m : Model)
    (attributes : gmap string pyval) (model : Instance) :
  instantiate d m attributes = Return model →
  m ≠ Order → i_order_items model = [].
Proof.
  intros H Hm. destruct m; [|done|]; simpl in H;
    apply bind_inr in H as (attrs & _ & [= <-]); done.
Qed.

Lemma create_inv (self : BaseCRUD) (d : Draws) (payload : Pydantic.BaseModel)
    (st st' : Store) (inst : Instance) :
  create self d payload st = (st', Return inst) ↔
  ∃ model,
    instantiate d (model_class self)
                (extract_attributes_from_schema payload None) = Return model
    ∧ add_new (model_class self) model st = Return (inst, st').
Proof.
  unfold create. rewrite Transactional_inr. split.
  - intros H. apply bind_inr in H as (model & Hm & Hadd). eauto.
  - intros (model & Hm & Hadd). by rewrite Hm, bind_Return.
Qed.

(** After a create, the repository's table is the old one followed by the
    new row, whose key was unused. *)
Lemma create_table (self : BaseCRUD) (d : Draws) (payload : Pydantic.BaseModel)
    (st st' : Store) (inst : Instance) :
  create self d payload st = (st', Return inst) →
  ∃ u, pk (i_attrs inst) = Some u
       ∧ (u ∉ pks (table (model_class self) st))
       ∧ table (model_class self) st'
         = (table (model_class self) st ++ [i_attrs inst])%list.
Proof.
  intros H. apply create_inv in H as (model & Hm & Hadd).
  unfold add_new in Hadd.
  apply bind_inr in Hadd as (st1 & Hins & Hadd).
  apply bind_inr in Hadd as (st2 & Hred & [= <- <-]). simpl.
  apply insert_row_inv in Hins as (u & Hpk & Hfresh & _ & _ & ->).
  exists u. split; [done|]. split; [done|].
  destruct (decide (model_class self = Order)) as [Hord|Hord].
  - rewrite (reduce_insert_items_tables _ _ _ Hred) by (by rewrite Hord).
    rewrite table_set_table. by destruct (decide _).
  - rewrite (instantiate_children _ _ _ _ Hm Hord) in Hred.
    injection Hred as <-. rewrite table_set_table. by destruct (decide _).
Qed.

Lemma id_is_column (m : Model) : "id" ∈ columns m.
Proof. destruct m; apply list_elem_of_here. Qed.

Lemma row_matches_id (st : Store) (m : Model) (u : N) (row : gmap string pyval) :
  row_matches st (where_ "id" (PyUUID u) (select m)) row = true ↔ pk row = Some u.
Proof.
  rewrite row_matches_where by done. by rewrite sql_eq_uuid, pk_Some.
Qed.

(** [get_by] on the key of a table in which exactly one row, the last,
    holds that key. *)
Lemma get_by_id_last (self : BaseCRUD) (st : Store)
    (rows : list (gmap string pyval)) (row : gmap string pyval) (u : N) :
  table (model_class self) st = (rows ++ [row])%list →
  pk row = Some u → u ∉ pks rows →
  get_by self "id" (PyUUID u) PyNone true st = Return (REntity row).
Proof.
  intros Htable Hpk Hfresh. unfold get_by, _query.
  rewrite optional_join_falsy by done. rewrite bind_Return. rewrite get_by_column by apply id_is_column. rewrite bind_Return.
  unfold _one_or_none, one_or_none.
  rewrite rows_of_scalars_plain by done. rewrite bind_Return.
  rewrite fetch_no_options by done. simpl. rewrite Htable, filter_app.
  assert (Hold : filter (λ r, row_matches st (where_ "id" (PyUUID u)
                                 (select (model_class self))) r = true) rows = []).
  { clear Htable. induction rows as [|r rows IH]; [done|].
    rewrite filter_cons. case_decide as Hr.
    - exfalso. apply Hfresh. apply elem_of_pks. exists r.
      split; [by left | by apply row_matches_id in Hr].
    - apply IH. intros Hin. apply Hfresh. apply elem_of_pks in Hin as (r' & ? & ?).
      apply elem_of_pks. exists r'. split; [by right | done]. }
  rewrite Hold, filter_cons, filter_nil. case_decide as Hr; [done|].
  exfalso. apply Hr. by apply row_matches_id.
Qed.

(** C6. [get_by_id] is [get_by] on the key with [unique=True], except
    that [None] becomes the Not-Found error: an entity is passed on, an
    error is passed on, and the call never returns [None] or a list.  On an
    unused key it raises Not-Found; on the key of an entity that [create]
    has just returned it returns that entity. *)
Theorem get_by_id_not_found (self : BaseCRUD) (id join_ : pyval) (st : Store) :
  (∀ row, get_by self "id" id join_ true st = Return (REntity row) →
          get_by_id self id join_ st = Return (REntity row))
  ∧ (∀ e, get_by self "id" id join_ true st = Raise e →
          get_by_id self id join_ st = Raise e)
  ∧ (get_by self "id" id join_ true st = Return RNone →
     get_by_id self id join_ st
     = Raise (HTTPException 404 (model_name (model_class self) +:+ " not found")))
  ∧ (∀ r, get_by_id self id join_ st = Return r → ∃ row, r = REntity row)
  ∧ (joins_only_load self →
     ∀ query, _query self join_ = Return query →
              matching self "id" id st = [] →
              get_by_id self id join_ st
              = Raise (HTTPException 404
                         (model_name (model_class self) +:+ " not found")))
  ∧ (∀ d payload st0 model,
       create self d payload st0 = (st, Return model) →
       ∃ u, i_attrs model !! "id" = Some (PyUUID u)
            ∧ get_by_id self (PyUUID u) PyNone st
              = Return (REntity (i_attrs model))).
Proof.
  assert (Hnone : get_by self "id" id join_ true st = Return RNone →
     get_by_id self id join_ st
     = Raise (HTTPException 404 (model_name (model_class self) +:+ " not found"))).
  { intros H. unfold get_by_id. by rewrite H. }
  split; [|split; [|split; [|split; [|split]]]].
  - intros row H. unfold get_by_id. by rewrite H.
  - intros e H. unfold get_by_id. by rewrite H.
  - exact Hnone.
  - intros r H. unfold get_by_id in H.
    apply bind_inr in H as (db_obj & Hget & H).
    destruct (get_by_unique_one_or_none _ _ _ _ _ _ Hget) as [->|(row & ->)];
      [discriminate|].
    injection H as <-. by exists row.
  - intros Hjoins query Hq Hnomatch. apply Hnone.
    apply (get_by_unique_no_match self "id" id join_ st query Hjoins Hq
             (id_is_column _) Hnomatch).
  - intros d payload st0 model Hcreate.
    apply create_table in Hcreate as (u & Hpk & Hfresh & Htable).
    exists u. split; [by apply pk_Some|].
    unfold get_by_id.
    by rewrite (get_by_id_last self st _ _ u Htable Hpk Hfresh).
Qed.

Lemma get_by_id_not_found_witness :
  joins_only_load Shop.ProductCRUD
  ∧ matching Shop.ProductCRUD "id" (PyUUID 7) Shop.with_order = []
  ∧ get_by_id Shop.ProductCRUD (PyUUID 7) PyNone Shop.with_order
    = Raise (HTTPException 404 "Product not found")
  ∧ get_by_id Shop.ProductCRUD (PyUUID 100) PyNone Shop.with_product
    = Return (REntity Shop.the_product).
Proof.
  split; [apply joins_only_load_no_joins|]. split; [reflexivity|].
  split.
  - eapply (get_by_id_not_found Shop.ProductCRUD (PyUUID 7) PyNone
              Shop.with_order).
    + apply joins_only_load_no_joins.
    + reflexivity.
    + reflexivity.
  - destruct (get_by_id_not_found Shop.ProductCRUD (PyUUID 100) PyNone
                Shop.with_product) as (_ & _ & _ & _ & _ & H).
    destruct (H (Shop.draws 100) Shop.widget empty_store
                {| i_attrs := Shop.the_product; i_order_items := [] |})
      as (u & Hu & Hget).
    + vm_compute. reflexivity.
    + simpl in Hu. injection Hu as <-. exact Hget.
Defined.

(** ** The attribute extractor *)



(** ** The flush: foreign keys follow the relationships *)

Lemma holds_None_spec (c : option pyval) :
  holds_None c = true ↔ c = Some PyNone.
Proof. destruct c as [[]|]; simpl; split; intros H; done || discriminate. Qed.

Lemma cleared_spec (m : Model) (attrs : gmap string pyval) (c : string) :
  cleared m attrs c ↔
  m = OrderItem
  ∧ ((c = "order_id" ∧ attrs !! "order" = Some PyNone)
     ∨ (c = "product_id" ∧ attrs !! "product" = Some PyNone)).
Proof.
  unfold cleared. split.
  - intros (r & Hr & Hnone). destruct m; simpl in Hr;
      try (by apply elem_of_nil in Hr).
    split; [done|].
    apply elem_of_cons in Hr as [[= -> ->]|Hr]; [by left|].
    apply elem_of_cons in Hr as [[= -> ->]|Hr]; [by right|].
    by apply elem_of_nil in Hr.
  - intros [-> [[-> H]|[-> H]]].
    + exists "order". split; [by left | done].
    + exists "product". split; [right; by left | done].
Qed.

Lemma synchronize_OrderItem (attrs : gmap string pyval) :
  synchronize OrderItem attrs
  = base.delete "order" (base.delete "product"
      ((if holds_None (attrs !! "order")
        then <["order_id" := PyNone]> else id)
         ((if holds_None (attrs !! "product")
           then <["product_id" := PyNone]> else id) attrs))).
Proof.
  unfold synchronize. simpl.
  by destruct (holds_None (attrs !! "order")),
              (holds_None (attrs !! "product")).
Qed.

(** What the flush leaves on an instance: no relationship attribute, [None]
    in a cleared column, and every other attribute as it was. *)
Lemma synchronize_lookup (m : Model) (attrs : gmap string pyval) (k : string) :
  (k ∈ relationships m → synchronize m attrs !! k = None)
  ∧ (k ∉ relationships m → cleared m attrs k →
     synchronize m attrs !! k = Some PyNone)
  ∧ (k ∉ relationships m → ¬ cleared m attrs k →
     synchronize m attrs !! k = attrs !! k).
Proof.
  destruct m.
  - unfold synchronize. simpl. split; [|split].
    + intros H. apply list_elem_of_singleton in H as ->.
      apply lookup_delete_eq.
    + intros _ H. apply cleared_spec in H as [? _]. discriminate.
    + intros H _. apply lookup_delete_ne. intros <-. apply H. by left.
  - unfold synchronize. simpl. split; [|split].
    + intros H. apply list_elem_of_singleton in H as ->.
      apply lookup_delete_eq.
    + intros _ H. apply cleared_spec in H as [? _]. discriminate.
    + intros H _. apply lookup_delete_ne. intros <-. apply H. by left.
  - rewrite synchronize_OrderItem. simpl. split; [|split].
    + intros H. apply elem_of_cons in H as [->|H]; [apply lookup_delete_eq|].
      apply list_elem_of_singleton in H as ->.
      rewrite lookup_delete_ne by done. apply lookup_delete_eq.
    + intros Hk H.
      rewrite !lookup_delete_ne
        by (intros <-; apply Hk; (by left) || (right; by left)).
      apply cleared_spec in H as [_ [[-> H]|[-> H]]];
        apply holds_None_spec in H; rewrite H.
      * apply lookup_insert_eq.
      * destruct (holds_None (attrs !! "order"));
          [rewrite lookup_insert_ne by done|]; apply lookup_insert_eq.
    + intros Hk H.
      rewrite !lookup_delete_ne
        by (intros <-; apply Hk; (by left) || (right; by left)).
      destruct (holds_None (attrs !! "order")) eqn:EO.
      { rewrite lookup_insert_ne.
        - destruct (holds_None (attrs !! "product")) eqn:EP; [|done].
          apply lookup_insert_ne. intros <-. apply H, cleared_spec.
          split; [done|]. right. split; [done|]. by apply holds_None_spec.
        - intros <-. apply H, cleared_spec.
          split; [done|]. left. split; [done|]. by apply holds_None_spec. }
      simpl. destruct (holds_None (attrs !! "product")) eqn:EP; [|done].
      apply lookup_insert_ne. intros <-. apply H, cleared_spec.
      split; [done|]. right. split; [done|]. by apply holds_None_spec.
Qed.


Lemma scalar_relationships_relationships (m : Model) (r c : string) :
  (r, c) ∈ scalar_relationships m → r ∈ relationships m ∧ c ∈ columns m.
Proof.
  intros H. destruct m; simpl in H; try (by apply elem_of_nil in H).
  apply elem_of_cons in H as [[= -> ->]|H].
  { split; apply (bool_decide_unpack _); by vm_compute. }
  apply elem_of_cons in H as [[= -> ->]|H]; [|by apply elem_of_nil in H].
  split; apply (bool_decide_unpack _); by vm_compute.
Qed.

Lemma cleared_column (m : Model) (attrs : gmap string pyval) (c : string) :
  cleared m attrs c → c ∈ columns m ∧ (c ∉ relationships m) ∧ c ≠ "id".
Proof.
  intros H. apply cleared_spec in H as [-> [[-> _]|[-> _]]];
    (split; [apply (bool_decide_unpack _); by vm_compute|]);
    (split; [apply (bool_decide_unpack _); by vm_compute | done]).
Qed.

(** The flush leaves the primary key alone. *)
Lemma pk_synchronize (m : Model) (attrs : gmap string pyval) :
  pk (synchronize m attrs) = pk attrs.
Proof.
  unfold pk. destruct (synchronize_lookup m attrs "id") as (_ & _ & H).
  rewrite H; [done| |].
  - destruct m; apply (bool_decide_unpack _); by vm_compute.
  - intros Hc. by apply cleared_column in Hc as (_ & _ & ?).
Qed.


(** ** [update]: the assignment loop *)

(** What [setattr] accepts: a value for a column, and [None] for a
    many-to-one relationship. *)
Lemma setattr_inv (m : Model) (model model' : gmap string pyval) (k : string)
    (v : pyval) :
  setattr m model k v = Return model' ↔
  (k ∈ columns m ∨ ((∃ c, (k, c) ∈ scalar_relationships m) ∧ v = PyNone))
  ∧ model' = <[k := v]> model.
Proof.
  unfold setattr. case_bool_decide as Hk.
  { split; [intros [= <-]; split; [by left | done] | by intros [_ ->]]. }
  case_bool_decide as Hr.
  - destruct m; simpl in Hr;
      repeat (apply elem_of_cons in Hr as [->|Hr]);
      try (by apply elem_of_nil in Hr);
      unfold SQLModel.set_attribute, SQLModel.assigned; simpl.
    + split; [by destruct v | intros [[?|[[c Hc] _]] _]; [done|]].
      by apply elem_of_nil in Hc.
    + split; [by destruct v | intros [[?|[[c Hc] _]] _]; [done|]].
      by apply elem_of_nil in Hc.
    + split.
      * destruct v; try discriminate. intros [= <-].
        split; [|done]. right. split; [|done]. exists "order_id". by left.
      * intros [[?|[_ ->]] ->]; [done | reflexivity].
    + split.
      * destruct v; try discriminate. intros [= <-].
        split; [|done]. right. split; [|done].
        exists "product_id". right. by left.
      * intros [[?|[_ ->]] ->]; [done | reflexivity].
  - split; [discriminate|]. intros [[?|[[c Hc] _]] _]; [done|].
    by apply scalar_relationships_relationships in Hc as [? _].
Qed.

Lemma reduce_setattr_inv (m : Model) (l : list (string * pyval)) :
  ∀ model model',
  NoDup l.*1 →
  reduce (λ model kv, setattr m model kv.1 kv.2) l model = Return model' →
  Forall (λ kv, kv.1 ∈ columns m
                ∨ ((∃ c, (kv.1, c) ∈ scalar_relationships m) ∧ kv.2 = PyNone))
         l
  ∧ model' = list_to_map l ∪ model.
Proof.
  induction l as [|[k v] l IH]; intros model model' Hnd; simpl.
  - intros [= <-]. split; [constructor|]. by rewrite (left_id_L ∅ (∪)).
  - intros H. apply bind_inr in H as (m1 & Hset & Hred).
    apply setattr_inv in Hset as [Hk ->]. simpl in Hk.
    apply NoDup_cons in Hnd as [Hfresh Hnd].
    destruct (IH _ _ Hnd Hred) as [Hall ->].
    split; [by constructor|].
    rewrite <- insert_union_l. symmetry. apply insert_union_r.
    by apply not_elem_of_list_to_map_1.
Qed.

Lemma reduce_setattr_ok (m : Model) (l : list (string * pyval)) :
  ∀ model,
  NoDup l.*1 →
  Forall (λ kv, kv.1 ∈ columns m
                ∨ ((∃ c, (kv.1, c) ∈ scalar_relationships m) ∧ kv.2 = PyNone))
         l →
  reduce (λ model kv, setattr m model kv.1 kv.2) l model
  = Return (list_to_map l ∪ model).
Proof.
  induction l as [|[k v] l IH]; intros model Hnd Hall; simpl.
  - by rewrite (left_id_L ∅ (∪)).
  - apply Forall_cons in Hall as [Hk Hall].
    apply NoDup_cons in Hnd as [Hfresh Hnd].
    assert (Hset : setattr m model k v = Return (<[k := v]> model))
      by by apply setattr_inv.
    rewrite Hset, bind_Return, (IH _ Hnd Hall).
    f_equal. rewrite <- insert_union_l. symmetry. apply insert_union_r.
    by apply not_elem_of_list_to_map_1.
Qed.

(** [update] returns the flushed merge of the patch into the entity. *)
Lemma update_inv (self : BaseCRUD) (model model' : gmap string pyval)
    (patch : Pydantic.BaseModel) (st st' : Store) :
  update self model patch st = (st', Return model') ↔
  map_Forall (λ k v, k ∈ columns (model_class self)
                     ∨ ((∃ c, (k, c) ∈ scalar_relationships (model_class self))
                        ∧ v = PyNone))
             (extract_attributes_from_schema patch None)
  ∧ model' = synchronize (model_class self)
               (extract_attributes_from_schema patch None ∪ model)
  ∧ add_loaded (model_class self) (pk model) model' st = Return st'.
Proof.
  unfold update. rewrite Transactional_inr. split.
  - intros H. apply bind_inr in H as (m1 & Hred & H).
    apply bind_inr in H as (st1 & Hadd & [= <- <-]).
    apply reduce_setattr_inv in Hred as [Hall ->];
      [|apply NoDup_fst_map_to_list].
    rewrite list_to_map_to_list in *. split; [|done].
    intros k v Hkv. apply elem_of_map_to_list in Hkv.
    exact (proj1 (Forall_forall _ _) Hall (k, v) Hkv).
  - intros (Hall & -> & Hadd).
    rewrite reduce_setattr_ok.
    + rewrite bind_Return, list_to_map_to_list. simpl.
      by rewrite Hadd.
    + apply NoDup_fst_map_to_list.
    + apply Forall_forall. intros [k v] Hkv.
      apply elem_of_map_to_list in Hkv. exact (Hall k v Hkv).
Qed.



(** A patch that sets the [order] of a stored item to [None] is accepted,
    and the item comes back without its [order_id], a field the patch does
    not set. *)
Lemma update_relationship_clears_key :
  order_items Shop.with_order !! 0%nat = Some Shop.first_item
  ∧ ("order_id" ∉ Pydantic.model_fields_set Shop.order_unset)
  ∧ Shop.first_item !! "order_id" = Some (PyUUID 200)
  ∧ (update Shop.OrderItemCRUD Shop.first_item Shop.order_unset
            Shop.with_order).2
    = Return (<["order_id" := PyNone]> Shop.first_item).
Proof.
  split; [vm_compute; reflexivity|]. split; [by vm_compute|].
  split; vm_compute; reflexivity.
Qed.

(** ** [create]: building the instance *)








Lemma add_new_inv (m : Model) (model inst : Instance) (st st' : Store) :
  add_new m model st = Return (inst, st') →
  ∃ u, i_attrs model !! "id" = Some (PyUUID u)
       ∧ i_attrs inst = synchronize m (i_attrs model)
       ∧ i_order_items inst
         = (λ item, <["order_id" := PyUUID u]> (synchronize OrderItem item))
             <$> i_order_items model.
Proof.
  unfold add_new. intros H.
  apply bind_inr in H as (st1 & Hins & H).
  apply bind_inr in H as (st2 & _ & [= <- <-]). simpl.
  apply insert_row_inv in Hins as (u & Hpk & _).
  assert (Hid : synchronize m (i_attrs model) !! "id" = Some (PyUUID u))
    by by apply pk_Some.
  rewrite pk_synchronize in Hpk. apply pk_Some in Hpk.
  exists u. by rewrite Hid.
Qed.



(** An item payload that sets [product_id] and gives [product=None] is
    accepted, and the item comes back, and is stored, without the key the
    payload set. *)
Lemma create_relationship_clears_key :
  extract_attributes_from_schema Shop.item_product_unset None !! "product_id"
  = Some (PyUUID 100)
  ∧ 100%N ∈ pks (products Shop.with_product)
  ∧ (create Shop.OrderItemCRUD (Shop.draws 300) Shop.item_product_unset
            Shop.with_product).2
    = Return {| i_attrs := list_to_map [("id", PyUUID 300);
                                        ("amount", PyInt 1);
                                        ("product_id", PyNone)];
                i_order_items := [] |}.
Proof.
  split; [vm_compute; reflexivity|].
  split; [apply (bool_decide_unpack _); by vm_compute|].
  vm_compute. reflexivity.
Qed.

(** A payload on which nothing was set: an [Order] of defaults only is
    stored, while a [Product] of defaults only is refused by the database,
    its required columns being NULL. *)
Example create_nothing_set_order :
  (create Shop.OrderCRUD (Shop.draws 200) Shop.nothing_set empty_store).2
  = Return {| i_attrs := Shop.the_order; i_order_items := [] |}.
Proof. vm_compute. reflexivity. Qed.

(** An amount that does not fit a signed 64-bit integer is refused before
    anything is written. *)
Example create_amount_too_large :
  create Shop.OrderItemCRUD (Shop.draws 300)
         {| Pydantic.model_fields :=
              list_to_map [("amount", Pydantic.SAtom (PyInt (2 ^ 63)));
                           ("product_id", Pydantic.SAtom (PyUUID 100))];
            Pydantic.model_fields_set := list_to_set ["amount"; "product_id"] |}
         Shop.with_product
  = (Shop.with_product, Raise too_large).
Proof. vm_compute. reflexivity. Qed.

Example create_nothing_set_product :
  create Shop.ProductCRUD (Shop.draws 100) Shop.nothing_set empty_store
  = (empty_store, Raise (IntegrityError "not null")).
Proof. vm_compute. reflexivity. Qed.

(** ** Keys and references under the writes *)

Lemma pks_app (l1 l2 : list (gmap string pyval)) :
  pks (l1 ++ l2) = (pks l1 ++ pks l2)%list.
Proof. apply omap_app. Qed.

Lemma pks_cons (r : gmap string pyval) (rows : list (gmap string pyval)) :
  pks (r :: rows) = match pk r with Some u => u :: pks rows | None => pks rows end.
Proof. reflexivity. Qed.

Lemma pks_drop_pk (u : N) (rows : list (gmap string pyval)) :
  pks (drop_pk u rows) = filter (λ x, x ≠ u) (pks rows).
Proof.
  unfold drop_pk. induction rows as [|r rows IH]; [done|].
  rewrite filter_cons, pks_cons. destruct (pk r) as [x|] eqn:Hr.
  - rewrite filter_cons. destruct (decide (x = u)) as [->|Hne].
    + rewrite decide_False by (intros H; by apply H).
      rewrite decide_False by (intros H; by apply H). exact IH.
    + rewrite decide_True by congruence. rewrite decide_True by done.
      by rewrite pks_cons, Hr, IH.
  - rewrite decide_True by done. by rewrite pks_cons, Hr.
Qed.

Lemma pks_replace (old u : N) (row : gmap string pyval)
    (rows : list (gmap string pyval)) :
  pk row = Some u →
  pks ((λ r, if bool_decide (pk r = Some old) then row else r) <$> rows)
  = (λ x, if decide (x = old) then u else x) <$> pks rows.
Proof.
  intros Hrow. induction rows as [|r rows IH]; [done|].
  rewrite fmap_cons, !pks_cons. case_bool_decide as Hr.
  - rewrite Hrow, Hr, fmap_cons. rewrite decide_True by done. by rewrite IH.
  - destruct (pk r) as [x|] eqn:Hx; [|exact IH].
    rewrite fmap_cons, decide_False by (intros ->; by apply Hr). by rewrite IH.
Qed.

Lemma pk_insert_other (k : string) (v : pyval) (row : gmap string pyval) :
  k ≠ "id" → pk (<[k := v]> row) = pk row.
Proof. intros H. unfold pk. by rewrite lookup_insert_ne. Qed.

Lemma refers_to_mono (row : gmap string pyval) (column : string)
    (t1 t2 : list (gmap string pyval)) :
  (∀ u, row !! column = Some (PyUUID u) → u ∈ pks t1 → u ∈ pks t2) →
  refers_to row column t1 → refers_to row column t2.
Proof. intros H (u & Hu & Hin). exists u. split; [done|]. by apply H. Qed.

(** The foreign-key check of an order item is the reference property. *)
Lemma fk_holds_item (st : Store) (item : gmap string pyval) :
  fk_holds st OrderItem item = true ↔
  (is_null (item !! "order_id") = true
   ∨ refers_to item "order_id" (orders st))
  ∧ (is_null (item !! "product_id") = true
     ∨ refers_to item "product_id" (products st)).
Proof.
  unfold fk_holds, refers_to. simpl.
  rewrite andb_true_r, andb_true_iff.
  assert (Hcol : ∀ c rows,
    match item !! c with
    | None | Some PyNone => true
    | Some (PyUUID u) => bool_decide (u ∈ pks rows)
    | Some _ => false
    end = true
    ↔ is_null (item !! c) = true
      ∨ ∃ u, item !! c = Some (PyUUID u) ∧ u ∈ pks rows).
  { intros c rows. destruct (item !! c) as [[]|]; simpl;
      try (split; [by left | done]);
      try (split; [done | intros [?|(? & ? & ?)]; done]).
    rewrite bool_decide_eq_true. split.
    - intros H. right. eauto.
    - intros [?|(u' & [= <-] & ?)]; done. }
  by rewrite !Hcol.
Qed.

Lemma referenced_false (st : Store) (m : Model) (column : string) (old : N) :
  (column, m) ∈ foreign_keys OrderItem →
  referenced st m old = false →
  ∀ item, item ∈ order_items st → item !! column ≠ Some (PyUUID old).
Proof.
  intros Hfk Href item Hitem Hcol.
  assert (Htrue : referenced st m old = true); [|congruence].
  unfold referenced. apply existsb_exists. exists (column, m).
  split; [by apply list_elem_of_In|]. simpl.
  rewrite bool_decide_eq_true_2 by done. simpl.
  apply existsb_exists. exists item. split; [by apply list_elem_of_In|].
  by apply sql_eq_uuid.
Qed.

Lemma consistent_empty : consistent empty_store.
Proof.
  split.
  - intros m. destruct m; constructor.
  - intros item H. by apply elem_of_nil in H.
Qed.

Lemma insert_row_consistent (m : Model) (row : gmap string pyval)
    (st st' : Store) :
  consistent st → insert_row m row st = Return st' → consistent st'.
Proof.
  intros [Hkeys Hrefs] H.
  apply insert_row_inv in H as (u & Hpk & Hfresh & _ & Hfk & ->).
  assert (Hgrow : ∀ m' x, x ∈ pks (table m' st) →
            x ∈ pks (table m' (set_table m (table m st ++ [row]) st))).
  { intros m' x Hx. rewrite table_set_table. case_decide as Hm; [|done].
    subst m'. rewrite pks_app. apply elem_of_app. by left. }
  split.
  - intros m'. rewrite table_set_table. case_decide as Hm; [|apply Hkeys].
    rewrite pks_app. apply NoDup_app. split; [apply Hkeys|].
    unfold pks at 2. simpl. rewrite Hpk. split.
    + intros x Hx Hin. apply list_elem_of_singleton in Hin. by subst.
    + apply NoDup_singleton.
  - assert (Hold : ∀ item, item ∈ order_items st →
      (is_null (item !! "order_id") = true
       ∨ refers_to item "order_id"
           (orders (set_table m (table m st ++ [row]) st)))
      ∧ (is_null (item !! "product_id") = true
         ∨ refers_to item "product_id"
             (products (set_table m (table m st ++ [row]) st)))).
    { intros item Hitem. destruct (Hrefs item Hitem) as [Ho Hp]. split.
      - destruct Ho as [?|Ho]; [by left|right].
        eapply refers_to_mono; [|exact Ho]. intros x _. apply (Hgrow Order).
      - destruct Hp as [?|Hp]; [by left|right].
        eapply refers_to_mono; [|exact Hp]. intros x _. apply (Hgrow Product). }
    intros item Hitem. destruct m; simpl in Hitem; try by apply Hold.
    apply elem_of_app in Hitem as [Hitem|Hitem]; [by apply Hold|].
    apply list_elem_of_singleton in Hitem as ->.
    by apply fk_holds_item in Hfk.
Qed.

Lemma update_row_inv (m : Model) (old : N) (row : gmap string pyval)
    (st st' : Store) :
  update_row m old row st = Return st' →
  ∃ u, pk row = Some u
       ∧ (u = old ∨ ((u ∉ pks (table m st)) ∧ referenced st m old = false))
       ∧ fk_holds st m row = true
       ∧ st' = set_table m
                 ((λ r, if bool_decide (pk r = Some old) then row else r)
                    <$> table m st) st.
Proof.
  unfold update_row. destruct (bindable m row); simpl; [|discriminate].
  destruct (pk row) as [u|]; [|discriminate].
  destruct (N.eqb_spec u old) as [->|Hne]; simpl.
  - destruct (null_free m row); simpl; [|discriminate].
    destruct (fk_holds st m row); simpl; [|discriminate].
    intros [= <-]. exists old. eauto.
  - case_bool_decide as Hin; simpl; [discriminate|].
    destruct (referenced st m old) eqn:Href; simpl; [discriminate|].
    destruct (null_free m row); simpl; [|discriminate].
    destruct (fk_holds st m row); simpl; [|discriminate].
    intros [= <-]. exists u. eauto 6.
Qed.

Lemma swap_key_fixed (old u x : N) :
  u = old ∨ x ≠ old → (if decide (x = old) then u else x) = x.
Proof. intros [->|H]; case_decide; congruence. Qed.

Lemma swap_key_same (old : N) (l : list N) :
  (λ x, if decide (x = old) then old else x) <$> l = l.
Proof.
  induction l as [|x l IH]; [done|].
  rewrite fmap_cons, IH. f_equal. apply swap_key_fixed. by left.
Qed.

Lemma update_row_consistent (m : Model) (old : N) (row : gmap string pyval)
    (st st' : Store) :
  consistent st → update_row m old row st = Return st' → consistent st'.
Proof.
  intros [Hkeys Hrefs] H.
  apply update_row_inv in H as (u & Hpk & Hu & Hfk & ->).
  assert (Hpks : ∀ m', pks (table m' (set_table m
            ((λ r, if bool_decide (pk r = Some old) then row else r)
               <$> table m st) st))
          = if decide (m = m')
            then (λ x, if decide (x = old) then u else x) <$> pks (table m st)
            else pks (table m' st)).
  { intros m'. rewrite table_set_table. case_decide; [|done].
    by apply pks_replace. }
  assert (Hstay : ∀ column m' item x,
            (column, m') ∈ foreign_keys OrderItem →
            item ∈ order_items st →
            item !! column = Some (PyUUID x) →
            x ∈ pks (table m' st) →
            x ∈ pks (table m' (set_table m
                   ((λ r, if bool_decide (pk r = Some old) then row else r)
                      <$> table m st) st))).
  { intros column m' item x Hcol Hitem Hx Hin. rewrite Hpks.
    case_decide as Hm; [|done]. subst m'.
    apply list_elem_of_fmap. exists x. split; [|done].
    symmetry. apply swap_key_fixed.
    destruct Hu as [->|[_ Href]]; [by left|right].
    intros ->. by apply (referenced_false st m column old Hcol Href item). }
  split.
  - intros m'. rewrite Hpks. case_decide; [|apply Hkeys].
    destruct Hu as [->|[Hfresh _]].
    + rewrite swap_key_same. apply Hkeys.
    + apply NoDup_fmap_2_strong; [|apply Hkeys].
      intros x y Hx Hy. repeat case_decide; congruence.
  - assert (Hold : ∀ item, item ∈ order_items st →
      fk_holds (set_table m
                 ((λ r, if bool_decide (pk r = Some old) then row else r)
                    <$> table m st) st) OrderItem item = true).
    { intros item Hitem. apply fk_holds_item.
      destruct (Hrefs item Hitem) as [Ho Hp]. split.
      - destruct Ho as [?|Ho]; [by left|right].
        eapply refers_to_mono; [|exact Ho]. intros x Hx.
        apply (Hstay "order_id" Order item x); try done.
        apply list_elem_of_here.
      - destruct Hp as [?|Hp]; [by left|right].
        eapply refers_to_mono; [|exact Hp]. intros x Hx.
        apply (Hstay "product_id" Product item x); try done.
        apply list_elem_of_further, list_elem_of_here. }
    intros item Hitem. apply fk_holds_item.
    destruct m; simpl in Hitem; try by apply Hold.
    apply list_elem_of_fmap in Hitem as (item0 & -> & Hitem0).
    case_bool_decide; [|by apply Hold].
    by destruct st.
Qed.

Lemma elem_of_pks_filter (P : gmap string pyval → Prop)
    `{∀ r, Decision (P r)} (rows : list (gmap string pyval)) (x : N) :
  x ∈ pks (filter P rows) → x ∈ pks rows.
Proof.
  rewrite !elem_of_pks. intros (r & Hr & Hx).
  apply list_elem_of_filter in Hr as [_ Hr]. eauto.
Qed.

Lemma NoDup_pks_filter (P : gmap string pyval → Prop)
    `{∀ r, Decision (P r)} (rows : list (gmap string pyval)) :
  NoDup (pks rows) → NoDup (pks (filter P rows)).
Proof.
  induction rows as [|r rows IH]; [done|].
  rewrite pks_cons, filter_cons. destruct (pk r) as [x|] eqn:Hx.
  - intros Hnd. apply NoDup_cons in Hnd as [Hfresh Hnd].
    case_decide; [|by apply IH].
    rewrite pks_cons, Hx. apply NoDup_cons. split; [|by apply IH].
    intros Hin. by apply Hfresh, (elem_of_pks_filter P).
  - intros Hnd. case_decide; [|by apply IH].
    rewrite pks_cons, Hx. by apply IH.
Qed.

Lemma pks_nullify (column : string) (u : N)
    (rows : list (gmap string pyval)) :
  column ≠ "id" → pks (nullify column u <$> rows) = pks rows.
Proof.
  intros Hc. induction rows as [|r rows IH]; [done|].
  rewrite fmap_cons, !pks_cons, IH. unfold nullify.
  destruct (belongs_to column u r); [|done]. by rewrite pk_insert_other.
Qed.

Lemma belongs_to_false (column : string) (u x : N)
    (item : gmap string pyval) :
  belongs_to column u item = false →
  item !! column = Some (PyUUID x) → x ≠ u.
Proof.
  unfold belongs_to. intros Hsql Hx ->. apply sql_eq_uuid in Hx. congruence.
Qed.

Lemma session_delete_consistent (m : Model) (model : gmap string pyval)
    (st st' : Store) :
  consistent st → session_delete m model st = Return st' → consistent st'.
Proof.
  intros [Hkeys Hrefs] H. unfold session_delete in H.
  destruct (pk model) as [u|]; [|discriminate].
  assert (Hdrop : ∀ rows x, x ∈ pks rows → x ≠ u → x ∈ pks (drop_pk u rows)).
  { intros rows x Hx Hxu. rewrite pks_drop_pk. by apply list_elem_of_filter. }
  assert (Hfilter : ∀ rows, NoDup (pks rows) → NoDup (pks (drop_pk u rows))).
  { intros rows Hnd. rewrite pks_drop_pk. by apply NoDup_filter. }
  pose proof (Hkeys Product) as Hkp. pose proof (Hkeys Order) as Hko.
  pose proof (Hkeys OrderItem) as Hki. simpl in Hkp, Hko, Hki.
  destruct m; injection H as <-; split.
  - intros m'. destruct m'; simpl; [by apply Hfilter | done |].
    by rewrite pks_nullify.
  - intros item' Hitem'. simpl in Hitem' |- *.
    apply list_elem_of_fmap in Hitem' as (item & -> & Hitem).
    destruct (Hrefs item Hitem) as [Ho Hp]. unfold nullify.
    destruct (belongs_to "product_id" u item) eqn:Hsql.
    + split.
      * destruct Ho as [Ho|(x & Hx & Hxin)].
        -- left. by rewrite lookup_insert_ne.
        -- right. exists x. by rewrite lookup_insert_ne.
      * left. by rewrite lookup_insert_eq.
    + split; [done|]. destruct Hp as [?|(x & Hx & Hxin)]; [by left|right].
      exists x. split; [done|]. apply Hdrop; [done|].
      by apply (belongs_to_false "product_id" u x item).
  - intros m'. destruct m'; simpl; [done | by apply Hfilter |].
    by apply NoDup_pks_filter.
  - intros item Hitem. simpl in Hitem |- *.
    apply list_elem_of_filter in Hitem as [Hsql Hitem].
    destruct (Hrefs item Hitem) as [Ho Hp]. split; [|done].
    destruct Ho as [?|(x & Hx & Hxin)]; [by left|right].
    exists x. split; [done|]. apply Hdrop; [done|].
    by apply (belongs_to_false "order_id" u x item).
  - intros m'. destruct m'; simpl; [done | done | by apply Hfilter].
  - intros item Hitem. simpl in Hitem |- *.
    apply list_elem_of_filter in Hitem as [_ Hitem]. by apply Hrefs.
Qed.

Lemma reduce_insert_items_consistent (items : list (gmap string pyval)) :
  ∀ st st',
  consistent st →
  reduce (λ s item, insert_row OrderItem item s) items st = Return st' →
  consistent st'.
Proof.
  induction items as [|item items IH]; intros st st' Hc; simpl.
  - by intros [= <-].
  - intros H. apply bind_inr in H as (st1 & H1 & H2).
    apply (IH st1 st'); [|done]. by apply (insert_row_consistent OrderItem item st).
Qed.

Lemma add_new_consistent (m : Model) (model inst : Instance) (st st' : Store) :
  consistent st → add_new m model st = Return (inst, st') → consistent st'.
Proof.
  intros Hc H. unfold add_new in H.
  apply bind_inr in H as (st1 & Hins & H).
  apply bind_inr in H as (st2 & Hred & [= _ <-]).
  eapply reduce_insert_items_consistent; [|exact Hred].
  eapply insert_row_consistent; [exact Hc | exact Hins].
Qed.

Lemma add_loaded_consistent (m : Model) (identity : option N)
    (model : gmap string pyval) (st st' : Store) :
  consistent st → add_loaded m identity model st = Return st' → consistent st'.
Proof.
  intros Hc. unfold add_loaded. destruct identity as [old|].
  - case_bool_decide.
    + by apply update_row_consistent.
    + by apply insert_row_consistent.
  - by apply insert_row_consistent.
Qed.

Lemma Transactional_consistent {A : Type} (body : Store → result (A * Store))
    (st : Store) :
  consistent st →
  (∀ a st', body st = Return (a, st') → consistent st') →
  consistent (Transactional body st).1.
Proof.
  intros Hc Hbody. unfold Transactional.
  destruct (body st) as [e|[a st']] eqn:E; simpl; [done|].
  by apply (Hbody a).
Qed.

Lemma create_consistent (self : BaseCRUD) (d : Draws)
    (payload : Pydantic.BaseModel) (st : Store) :
  consistent st → consistent (create self d payload st).1.
Proof.
  intros Hc. apply Transactional_consistent; [done|].
  intros inst st' H. apply bind_inr in H as (model & _ & Hadd).
  by apply (add_new_consistent _ _ _ _ _ Hc Hadd).
Qed.

Lemma update_consistent (self : BaseCRUD) (model : gmap string pyval)
    (patch : Pydantic.BaseModel) (st : Store) :
  consistent st → consistent (update self model patch st).1.
Proof.
  intros Hc. apply Transactional_consistent; [done|].
  intros updated st' H. apply bind_inr in H as (m1 & _ & H).
  apply bind_inr in H as (st1 & Hadd & [= _ <-]).
  by apply (add_loaded_consistent _ _ _ _ _ Hc Hadd).
Qed.

Lemma delete_consistent (self : BaseCRUD) (model : gmap string pyval)
    (st : Store) :
  consistent st → consistent (delete self model st).1.
Proof.
  intros Hc. apply Transactional_consistent; [done|].
  intros [] st' H. apply bind_inr in H as (st1 & Hdel & [= <-]).
  by apply (session_delete_consistent _ _ _ _ Hc Hdel).
Qed.

Lemma run_calls_consistent (calls : list Call) :
  ∀ st, consistent st → consistent (run_calls calls st).
Proof.
  induction calls as [|c calls IH]; intros st Hc; [done|].
  simpl. apply IH. destruct c; simpl.
  - by apply create_consistent.
  - by apply update_consistent.
  - by apply delete_consistent.
Qed.

(** C9, as amended.  After any sequence of repository calls on an empty
    database, every stored order item's [order_id] is NULL or the key of an
    existing order, and its [product_id] is NULL or the key of an existing
    product; no two rows of a table share a key.  Either reference may be
    absent: both columns are nullable. *)
Theorem order_item_references (calls : list Call) :
  references_hold (run_calls calls empty_store)
  ∧ keys_unique (run_calls calls empty_store).
Proof.
  destruct (run_calls_consistent calls empty_store consistent_empty) as [? ?].
  by split.
Qed.

Lemma product_deleted_items :
  order_items (run_calls product_deleted empty_store) = [orphaned_item].
Proof. vm_compute. reflexivity. Qed.

Lemma item_without_order_items :
  order_items (run_calls item_without_order empty_store) = [unowned_item].
Proof. vm_compute. reflexivity. Qed.

Lemma order_item_references_witness :
  order_items (run_calls product_deleted empty_store) = [orphaned_item]
  ∧ refers_to orphaned_item "order_id"
              (orders (run_calls product_deleted empty_store))
  ∧ is_null (orphaned_item !! "product_id") = true.
Proof.
  split; [exact product_deleted_items|].
  destruct (order_item_references product_deleted) as [Hrefs _].
  destruct (Hrefs orphaned_item) as [Ho _].
  { pose proof (list_elem_of_here orphaned_item []) as Hin.
    by rewrite <- product_deleted_items in Hin. }
  split; [|reflexivity].
  destruct Ho as [Hnull|Ho]; [discriminate Hnull | exact Ho].
Defined.

(** C9, as stated, fails.  Deleting a product leaves its order items in
    place with [product_id] set to NULL, and an order item created through
    the generic repository has no [order_id]: in both stores an item lacks
    one of the two references. *)
Lemma order_item_reference_absent :
  (order_items (run_calls product_deleted empty_store) = [orphaned_item]
   ∧ products (run_calls product_deleted empty_store) = []
   ∧ orphaned_item !! "product_id" = Some PyNone
   ∧ ¬ refers_to orphaned_item "product_id"
         (products (run_calls product_deleted empty_store)))
  ∧ (order_items (run_calls item_without_order empty_store) = [unowned_item]
     ∧ unowned_item !! "order_id" = None
     ∧ ¬ refers_to unowned_item "order_id"
           (orders (run_calls item_without_order empty_store))).
Proof.
  split.
  - split; [exact product_deleted_items|].
    split; [vm_compute; reflexivity|]. split; [reflexivity|].
    intros (u & Hu & _). vm_compute in Hu. discriminate.
  - split; [exact item_without_order_items|]. split; [reflexivity|].
    intros (u & Hu & _). vm_compute in Hu. discriminate.
Qed.

(** ** Reading without joins *)

(** Without joins, [get_by] is a function of the rows that satisfy the
    filter. *)
Lemma get_by_plain (self : BaseCRUD) (field : string) (value : pyval)
    (unique : bool) (st : Store) :
  field ∈ columns (model_class self) →
  get_by self field value PyNone unique st
  = if unique
    then match matching self field value st with
         | [] => Return RNone
         | [row] => Return (REntity row)
         | _ => Raise MultipleResultsFound
         end
    else Return (RList (matching self field value st)).
Proof.
  intros Hfield. unfold get_by, _query. rewrite optional_join_falsy by done.
  rewrite bind_Return, get_by_column by done. rewrite bind_Return.
  assert (Hf : fetch st (where_ field value (select (model_class self)))
               = matching self field value st).
  { rewrite fetch_no_options by done. unfold matching.
    apply list_filter_iff. intros row. by rewrite row_matches_where. }
  destruct unique.
  - unfold _one_or_none, one_or_none.
    rewrite rows_of_scalars_plain by done. rewrite bind_Return, Hf.
    by destruct (matching self field value st) as [|r1 [|r2 rows]].
  - simpl. unfold _all, all. rewrite rows_of_scalars_plain by done.
    by rewrite Hf.
Qed.

Lemma get_by_id_plain_table (self : BaseCRUD) (id : pyval) (st st' : Store) :
  table (model_class self) st' = table (model_class self) st →
  get_by_id self id PyNone st' = get_by_id self id PyNone st.
Proof.
  intros Ht. unfold get_by_id.
  rewrite !get_by_plain by apply id_is_column. unfold matching.
  by rewrite Ht.
Qed.

Lemma filter_none {A : Type} (P : A → Prop) `{∀ x, Decision (P x)}
    (l : list A) :
  Forall (λ x, ¬ P x) l → filter P l = [].
Proof.
  induction 1 as [|x l Hx _ IH]; [done|].
  rewrite filter_cons. by rewrite decide_False.
Qed.

Lemma filter_key_fresh (p : N) (rows : list (gmap string pyval)) :
  p ∉ pks rows →
  filter (λ row, sql_eq (row !! "id") (PyUUID p) = true) rows = [].
Proof.
  intros Hfresh. induction rows as [|r rows IH]; [done|].
  rewrite filter_cons. case_decide as Hr.
  - exfalso. apply Hfresh. apply elem_of_pks. exists r.
    split; [by left|]. by apply pk_Some, sql_eq_uuid.
  - apply IH. intros Hin. apply Hfresh.
    apply elem_of_pks in Hin as (r' & ? & ?). apply elem_of_pks.
    exists r'. split; [by right | done].
Qed.

Lemma filter_key_unique (p : N) (rows : list (gmap string pyval)) :
  NoDup (pks rows) → p ∈ pks rows →
  ∃ row, filter (λ row, sql_eq (row !! "id") (PyUUID p) = true) rows = [row]
         ∧ pk row = Some p.
Proof.
  induction rows as [|r rows IH]; intros Hnd Hin.
  - by apply elem_of_nil in Hin.
  - rewrite pks_cons in Hnd, Hin. rewrite filter_cons.
    destruct (pk r) as [x|] eqn:Hx.
    + apply NoDup_cons in Hnd as [Hfresh Hnd].
      destruct (decide (x = p)) as [->|Hne].
      * exists r. split; [|done].
        rewrite decide_True by by apply sql_eq_uuid, pk_Some.
        by rewrite filter_key_fresh.
      * apply elem_of_cons in Hin as [->|Hin]; [done|].
        destruct (IH Hnd Hin) as (row & Hrow & Hpk). exists row.
        split; [|done]. rewrite decide_False; [done|].
        intros H. apply sql_eq_uuid, pk_Some in H. congruence.
    + destruct (IH Hnd Hin) as (row & Hrow & Hpk). exists row.
      split; [|done]. rewrite decide_False; [done|].
      intros H. apply sql_eq_uuid, pk_Some in H. congruence.
Qed.

Lemma get_by_id_existing (self : BaseCRUD) (p : N) (st : Store) :
  NoDup (pks (table (model_class self) st)) →
  p ∈ pks (table (model_class self) st) →
  ∃ row, pk row = Some p
         ∧ get_by_id self (PyUUID p) PyNone st = Return (REntity row).
Proof.
  intros Hnd Hin.
  destruct (filter_key_unique p _ Hnd Hin) as (row & Hrow & Hpk).
  exists row. split; [done|]. unfold get_by_id. rewrite get_by_plain by apply id_is_column.
  unfold matching. by rewrite Hrow.
Qed.

Lemma delete_inv (self : BaseCRUD) (model : gmap string pyval)
    (st st' : Store) :
  delete self model st = (st', Return ()) ↔
  session_delete (model_class self) model st = Return st'.
Proof.
  unfold delete. rewrite Transactional_inr. split.
  - intros H. by apply bind_inr in H as (st1 & Hdel & [= <-]).
  - intros H. by rewrite H.
Qed.

(** C2. Deleting an entity that has a key removes the row stored under
    that key from its table and no other row of it: the table after is the
    table before without that row, in the same order, and the key is gone.
    For an [Order], the same transaction removes the order's items and
    nothing else: the items left are those of other orders, a later
    [get_by("order_id", order.id)] on the items returns the empty list, the
    products are untouched, every lookup of a product by id answers as
    before, and (in a consistent store) each product an item of the order
    referred to is still returned by [get_by_id].  For a [Product] no order
    and no item is removed: each item stays in its place, and loses its
    [product_id] when it referred to the product.  For an [OrderItem] the
    other tables are untouched. *)
Theorem delete_cascades_to_order_items (self : BaseCRUD)
    (model : gmap string pyval) (u : N) (st : Store) :
  pk model = Some u →
  ∃ st',
    delete self model st = (st', Return ())
    ∧ table (model_class self) st'
      = filter (λ row, pk row ≠ Some u) (table (model_class self) st)
    ∧ (u ∉ pks (table (model_class self) st'))
    ∧ (∀ row, row ∈ table (model_class self) st →
              pk row ≠ Some u → row ∈ table (model_class self) st')
    ∧ (model_class self = Order →
       order_items st'
       = filter (λ item, sql_eq (item !! "order_id") (PyUUID u) = false)
                (order_items st)
       ∧ (∀ item, item ∈ order_items st' →
                  item !! "order_id" ≠ Some (PyUUID u))
       ∧ products st' = products st
       ∧ (∀ items, model_class items = OrderItem →
            get_by items "order_id" (PyUUID u) PyNone false st'
            = Return (RList []))
       ∧ (∀ repo id, model_class repo = Product →
            get_by_id repo id PyNone st' = get_by_id repo id PyNone st)
       ∧ (consistent st →
          ∀ repo item p,
            model_class repo = Product →
            item ∈ order_items st →
            item !! "order_id" = Some (PyUUID u) →
            item !! "product_id" = Some (PyUUID p) →
            ∃ product, pk product = Some p
              ∧ get_by_id repo (PyUUID p) PyNone st'
                = Return (REntity product)))
    ∧ (model_class self = Product →
       orders st' = orders st
       ∧ pks (order_items st') = pks (order_items st)
       ∧ length (order_items st') = length (order_items st)
       ∧ (∀ i item, order_items st !! i = Some item →
            order_items st' !! i
            = Some (if sql_eq (item !! "product_id") (PyUUID u)
                    then <["product_id" := PyNone]> item else item)))
    ∧ (model_class self = OrderItem →
       orders st' = orders st ∧ products st' = products st).
Proof.
  intros Hpk.
  assert (Hdel : ∃ st', session_delete (model_class self) model st = Return st').
  { unfold session_delete. rewrite Hpk. eauto. }
  destruct Hdel as [st' Hdel]. exists st'.
  split; [by apply delete_inv|].
  assert (Hgone : ∀ rows, u ∉ pks (filter (λ row, pk row ≠ Some u) rows)).
  { intros rows H. change (u ∈ pks (drop_pk u rows)) in H.
    rewrite pks_drop_pk in H. by apply list_elem_of_filter in H as [? _]. }
  assert (Hkept : ∀ (rows : list (gmap string pyval)) row,
            row ∈ rows → pk row ≠ Some u →
            row ∈ filter (λ row, pk row ≠ Some u) rows).
  { intros rows row Hrow Hne. by apply list_elem_of_filter. }
  unfold session_delete in Hdel. rewrite Hpk in Hdel.
  destruct (model_class self) eqn:Hm; injection Hdel as <-; simpl.
  - split; [done|]. split; [apply Hgone|]. split; [apply Hkept|].
    split; [done|]. split; [|done].
    intros _. split; [done|]. split; [by rewrite pks_nullify|].
    split; [by rewrite length_fmap|].
    intros i item Hi. rewrite list_lookup_fmap, Hi. done.
  - split; [done|]. split; [apply Hgone|]. split; [apply Hkept|].
    split; [|split; done].
    intros _. split; [done|]. split; [|split; [done|split; [|split]]].
    + intros item Hitem Hid. apply list_elem_of_filter in Hitem as [Hsql _].
      unfold belongs_to in Hsql. apply sql_eq_uuid in Hid. congruence.
    + intros items Hitems. rewrite get_by_plain
        by (rewrite Hitems; apply list_elem_of_further, list_elem_of_further,
              list_elem_of_here).
      do 2 f_equal. unfold matching. rewrite Hitems. cbn [table order_items].
      rewrite list_filter_filter. apply filter_none. apply Forall_forall.
      intros item _ [H1 H2]. unfold belongs_to in H2. congruence.
    + intros repo id Hrepo. apply get_by_id_plain_table. by rewrite Hrepo.
    + intros [Hkeys Hrefs] repo item p Hrepo Hitem Ho Hp.
      destruct (Hrefs item Hitem) as [_ [Hnull|(x & Hx & Hxin)]].
      { rewrite Hp in Hnull. discriminate. }
      rewrite Hp in Hx. injection Hx as <-.
      apply get_by_id_existing; rewrite Hrepo; simpl; [apply (Hkeys Product)|done].
  - split; [done|]. split; [apply Hgone|]. split; [apply Hkept|].
    split; [done|]. split; [done|]. done.
Qed.

Lemma delete_cascades_to_order_items_witness :
  pk Shop.the_order = Some 200%N
  ∧ 200%N ∈ pks (table Order Shop.with_order)
  ∧ length (order_items Shop.with_order) = 2
  ∧ ∃ st',
      delete Shop.OrderCRUD Shop.the_order Shop.with_order = (st', Return ())
      ∧ (200%N ∉ pks (table Order st'))
      ∧ order_items st' = []
      ∧ get_by Shop.OrderItemCRUD "order_id" (PyUUID 200) PyNone false st'
        = Return (RList [])
      ∧ get_by_id Shop.ProductCRUD (PyUUID 100) PyNone st'
        = Return (REntity Shop.the_product).
Proof.
  assert (Hpk : pk Shop.the_order = Some 200%N) by reflexivity.
  assert (Hin : 200%N ∈ pks (table (model_class Shop.OrderCRUD) Shop.with_order)).
  { apply (bool_decide_unpack _). by vm_compute. }
  split; [exact Hpk|]. split; [exact Hin|]. split; [by vm_compute|].
  destruct (delete_cascades_to_order_items Shop.OrderCRUD Shop.the_order
              200%N Shop.with_order Hpk)
    as (st' & Hdel & _ & Hgone & _ & Horder & _).
  destruct (Horder eq_refl) as (Hleft & _ & _ & Hitems & Hsame & _).
  exists st'. split; [exact Hdel|]. split; [exact Hgone|]. split; [|split].
  - etrans; [exact Hleft|]. by vm_compute.
  - by apply Hitems.
  - etrans; [by apply Hsame|]. by vm_compute.
Defined.

(** * Further properties *)

(** ** Reading by a field *)





(** The rows of a statement that compares nothing but one criterion. *)
Lemma fetch_one_criterion (m : Model) (criterion : Criterion) (st : Store) :
  fetch st (where_clause criterion (select m))
  = filter (λ row, holds st row criterion = true) (table m st).
Proof.
  rewrite fetch_no_options by done. simpl.
  apply list_filter_iff. intros row. unfold row_matches. simpl.
  by rewrite andb_true_r.
Qed.





(** X4. Without relationships and with [unique=True], the result of
    [get_by] on a column is decided by the number of matching rows: the row
    when exactly one matches, and [MultipleResultsFound] when two or more
    match, in which case nothing is returned. *)
Theorem get_by_unique_by_count (self : BaseCRUD) (field : string)
    (value : pyval) (st : Store) :
  field ∈ columns (model_class self) →
  (∀ row, matching self field value st = [row] →
          get_by self field value PyNone true st = Return (REntity row))
  ∧ ((2 ≤ length (matching self field value st))%nat →
     get_by self field value PyNone true st = Raise MultipleResultsFound)
  ∧ (get_by self field value PyNone true st = Raise MultipleResultsFound →
     (2 ≤ length (matching self field value st))%nat).
Proof.
  intros Hfield. rewrite get_by_plain by done.
  split; [|split].
  - by intros row ->.
  - destruct (matching self field value st) as [|r1 [|r2 rows]]; simpl;
      [lia | lia | done].
  - destruct (matching self field value st) as [|r1 [|r2 rows]]; simpl;
      [discriminate | discriminate | lia].
Qed.

Lemma get_by_unique_by_count_witness :
  "order_id" ∈ columns (model_class Shop.OrderItemCRUD)
  ∧ (2 ≤ length (matching Shop.OrderItemCRUD "order_id" (PyUUID 200)
                   Shop.with_order))%nat
  ∧ get_by Shop.OrderItemCRUD "order_id" (PyUUID 200) PyNone true
           Shop.with_order
    = Raise MultipleResultsFound.
Proof.
  assert (H1 : "order_id" ∈ columns (model_class Shop.OrderItemCRUD)).
  { apply (bool_decide_unpack _). by vm_compute. }
  assert (H2 : (2 ≤ length (matching Shop.OrderItemCRUD "order_id" (PyUUID 200)
                              Shop.with_order))%nat).
  { apply (bool_decide_unpack _). by vm_compute. }
  split; [exact H1|]. split; [exact H2|].
  destruct (get_by_unique_by_count Shop.OrderItemCRUD "order_id" (PyUUID 200)
              Shop.with_order H1) as (_ & Hmany & _).
  exact (Hmany H2).
Defined.

(** X5. On a table whose keys are unique, [get_by_id] is a lookup by key:
    for a key of the table it returns the one row that holds it, and for
    any other key it raises Not-Found; it never raises
    [MultipleResultsFound]. *)
Theorem get_by_id_lookup (self : BaseCRUD) (p : N) (st : Store) :
  NoDup (pks (table (model_class self) st)) →
  (p ∈ pks (table (model_class self) st) →
   ∃ row, row ∈ table (model_class self) st
          ∧ pk row = Some p
          ∧ get_by_id self (PyUUID p) PyNone st = Return (REntity row))
  ∧ (p ∉ pks (table (model_class self) st) →
     get_by_id self (PyUUID p) PyNone st
     = Raise (HTTPException 404
                (model_name (model_class self) +:+ " not found")))
  ∧ get_by_id self (PyUUID p) PyNone st ≠ Raise MultipleResultsFound.
Proof.
  intros Hnd.
  assert (Hin : p ∈ pks (table (model_class self) st) →
    ∃ row, row ∈ table (model_class self) st
           ∧ pk row = Some p
           ∧ get_by_id self (PyUUID p) PyNone st = Return (REntity row)).
  { intros Hp. destruct (filter_key_unique p _ Hnd Hp) as (row & Hrow & Hpk).
    exists row. split; [|split; [done|]].
    - assert (Hm : row ∈ filter (λ r, sql_eq (r !! "id") (PyUUID p) = true)
                           (table (model_class self) st))
        by (rewrite Hrow; by left).
      by apply list_elem_of_filter in Hm as [_ ?].
    - unfold get_by_id. rewrite get_by_plain by apply id_is_column.
      unfold matching. by rewrite Hrow. }
  assert (Hout : p ∉ pks (table (model_class self) st) →
    get_by_id self (PyUUID p) PyNone st
    = Raise (HTTPException 404
               (model_name (model_class self) +:+ " not found"))).
  { intros Hp. unfold get_by_id. rewrite get_by_plain by apply id_is_column.
    unfold matching. by rewrite filter_key_fresh. }
  split; [exact Hin|]. split; [exact Hout|].
  destruct (decide (p ∈ pks (table (model_class self) st))) as [Hp|Hp].
  - destruct (Hin Hp) as (row & _ & _ & ->). discriminate.
  - rewrite (Hout Hp). discriminate.
Qed.

Lemma get_by_id_lookup_witness :
  NoDup (pks (table (model_class Shop.OrderItemCRUD) Shop.with_order))
  ∧ 202%N ∈ pks (table (model_class Shop.OrderItemCRUD) Shop.with_order)
  ∧ ∃ row, pk row = Some 202%N
           ∧ get_by_id Shop.OrderItemCRUD (PyUUID 202) PyNone Shop.with_order
             = Return (REntity row).
Proof.
  assert (Hnd : NoDup (pks (table (model_class Shop.OrderItemCRUD)
                              Shop.with_order))).
  { apply (bool_decide_unpack _). by vm_compute. }
  assert (Hin : 202%N ∈ pks (table (model_class Shop.OrderItemCRUD)
                               Shop.with_order)).
  { apply (bool_decide_unpack _). by vm_compute. }
  split; [exact Hnd|]. split; [exact Hin|].
  destruct (get_by_id_lookup Shop.OrderItemCRUD 202 Shop.with_order Hnd)
    as (Hfound & _ & _).
  destruct (Hfound Hin) as (row & _ & Hpk & Hget). eauto.
Defined.

(** ** Writes followed by reads *)

Lemma add_loaded_inv (m : Model) (identity : option N)
    (model : gmap string pyval) (st st' : Store) :
  add_loaded m identity model st = Return st' →
  (∃ old, identity = Some old ∧ old ∈ pks (table m st)
          ∧ update_row m old model st = Return st')
  ∨ ((∀ old, identity = Some old → old ∉ pks (table m st))
     ∧ insert_row m model st = Return st').
Proof.
  unfold add_loaded. destruct identity as [old|].
  - case_bool_decide as Hin; intros H.
    + left. eauto.
    + right. split; [|done]. by intros ? [= <-].
  - intros H. right. split; [|done]. by intros ? [=].
Qed.

Lemma replace_fresh (old : N) (row : gmap string pyval)
    (rows : list (gmap string pyval)) :
  old ∉ pks rows →
  (λ r, if bool_decide (pk r = Some old) then row else r) <$> rows = rows.
Proof.
  intros Hfresh. induction rows as [|r rows IH]; [done|].
  rewrite fmap_cons. rewrite pks_cons in Hfresh.
  destruct (pk r) as [x|] eqn:Hx.
  - apply not_elem_of_cons in Hfresh as [Hne Hfresh].
    rewrite bool_decide_eq_false_2 by congruence. by rewrite IH.
  - rewrite bool_decide_eq_false_2 by congruence. by rewrite IH.
Qed.

Lemma filter_replace_unique (old u : N) (row : gmap string pyval)
    (rows : list (gmap string pyval)) :
  NoDup (pks rows) → old ∈ pks rows → pk row = Some u →
  u = old ∨ u ∉ pks rows →
  filter (λ r, sql_eq (r !! "id") (PyUUID u) = true)
         ((λ r, if bool_decide (pk r = Some old) then row else r) <$> rows)
  = [row].
Proof.
  intros Hnd Hold Hrow Hu. induction rows as [|r rows IH].
  - by apply elem_of_nil in Hold.
  - rewrite pks_cons in Hnd, Hold, Hu. rewrite fmap_cons, filter_cons.
    destruct (pk r) as [x|] eqn:Hx.
    + apply NoDup_cons in Hnd as [Hfresh Hnd].
      destruct (decide (x = old)) as [->|Hne].
      * rewrite bool_decide_eq_true_2 by done.
        rewrite decide_True by by apply sql_eq_uuid, pk_Some.
        rewrite replace_fresh by done. rewrite filter_key_fresh; [done|].
        destruct Hu as [->|Hu]; [done|]. by apply not_elem_of_cons in Hu as [_ ?].
      * rewrite bool_decide_eq_false_2 by congruence.
        rewrite decide_False.
        -- apply IH; [done| |].
           ++ by apply elem_of_cons in Hold as [->|?].
           ++ destruct Hu as [->|Hu]; [by left|right].
              by apply not_elem_of_cons in Hu as [_ ?].
        -- intros H. apply sql_eq_uuid, pk_Some in H.
           rewrite Hx in H. injection H as ->.
           destruct Hu as [->|Hu]; [done|].
           by apply not_elem_of_cons in Hu as [? _].
    + rewrite bool_decide_eq_false_2 by congruence.
      rewrite decide_False; [by apply IH|].
      intros H. apply sql_eq_uuid, pk_Some in H. congruence.
Qed.

(** X6. An update can be read back.  On a table whose keys are unique,
    when [update] returns an entity, [get_by_id] on that entity's key in
    the resulting store returns exactly that entity. *)
Theorem update_then_get_by_id (self : BaseCRUD)
    (existing updated : gmap string pyval) (patch : Pydantic.BaseModel)
    (st st' : Store) :
  NoDup (pks (table (model_class self) st)) →
  update self existing patch st = (st', Return updated) →
  ∃ u, pk updated = Some u
       ∧ get_by_id self (PyUUID u) PyNone st' = Return (REntity updated).
Proof.
  intros Hnd H. apply update_inv in H as (_ & _ & Hadd).
  apply add_loaded_inv in Hadd as [(old & _ & Hold & Hupd)|[_ Hins]].
  - apply update_row_inv in Hupd as (u & Hpk & Hu & _ & ->).
    exists u. split; [done|]. unfold get_by_id. rewrite get_by_plain by apply id_is_column.
    unfold matching. rewrite table_set_table, decide_True by done.
    rewrite (filter_replace_unique old u updated); try done.
    destruct Hu as [?|[? _]]; [by left | by right].
  - apply insert_row_inv in Hins as (u & Hpk & Hfresh & _ & _ & ->).
    exists u. split; [done|]. unfold get_by_id.
    rewrite (get_by_id_last self _ (table (model_class self) st) updated u);
      try done.
    rewrite table_set_table. by rewrite decide_True.
Qed.

Lemma update_then_get_by_id_witness :
  NoDup (pks (table (model_class Shop.OrderCRUD) Shop.with_order))
  ∧ get_by_id Shop.OrderCRUD (PyUUID 200) PyNone
      (update Shop.OrderCRUD Shop.the_order (Shop.status_update shipped)
              Shop.with_order).1
    = Return (REntity (<["status" := PyEnum shipped]> Shop.the_order)).
Proof.
  assert (Hnd : NoDup (pks (table (model_class Shop.OrderCRUD) Shop.with_order))).
  { apply (bool_decide_unpack _). by vm_compute. }
  split; [exact Hnd|].
  assert (Hrun :
    update Shop.OrderCRUD Shop.the_order (Shop.status_update shipped)
           Shop.with_order
    = ((update Shop.OrderCRUD Shop.the_order (Shop.status_update shipped)
               Shop.with_order).1,
       Return (<["status" := PyEnum shipped]> Shop.the_order))).
  { vm_compute. reflexivity. }
  destruct (update_then_get_by_id Shop.OrderCRUD Shop.the_order
              (<["status" := PyEnum shipped]> Shop.the_order)
              (Shop.status_update shipped) Shop.with_order _ Hnd Hrun)
    as (u & Hu & Hget).
  assert (Hu' : pk (<["status" := PyEnum shipped]> Shop.the_order) = Some 200%N)
    by reflexivity.
  rewrite Hu' in Hu. injection Hu as <-. exact Hget.
Defined.

Lemma session_delete_table (m : Model) (model : gmap string pyval)
    (st st' : Store) :
  session_delete m model st = Return st' →
  ∃ u, pk model = Some u
       ∧ table m st' = drop_pk u (table m st).
Proof.
  unfold session_delete. destruct (pk model) as [u|]; [|discriminate].
  intros [= <-]. exists u. split; [done|]. by destruct m.
Qed.

Lemma not_elem_of_pks_drop_pk (u : N) (rows : list (gmap string pyval)) :
  u ∉ pks (drop_pk u rows).
Proof.
  rewrite pks_drop_pk. intros H. by apply list_elem_of_filter in H as [? _].
Qed.

(** X7. A deleted entity is gone for its repository.  After [delete]
    returns, [get_by_id] on the entity's key raises Not-Found, and
    [get_by] on the key with [unique=False] returns the empty list. *)
Theorem delete_then_get_by_id (self : BaseCRUD) (model : gmap string pyval)
    (st st' : Store) :
  delete self model st = (st', Return ()) →
  ∃ u, pk model = Some u
       ∧ get_by_id self (PyUUID u) PyNone st'
         = Raise (HTTPException 404
                    (model_name (model_class self) +:+ " not found"))
       ∧ get_by self "id" (PyUUID u) PyNone false st' = Return (RList []).
Proof.
  intros H. apply delete_inv, session_delete_table in H as (u & Hpk & Ht).
  exists u. split; [done|].
  assert (Hm : matching self "id" (PyUUID u) st' = []).
  { unfold matching. rewrite Ht. apply filter_key_fresh.
    apply not_elem_of_pks_drop_pk. }
  unfold get_by_id. rewrite !get_by_plain by apply id_is_column. by rewrite Hm.
Qed.

Lemma delete_then_get_by_id_witness :
  delete Shop.ProductCRUD Shop.the_product Shop.with_product
  = (empty_store, Return ())
  ∧ get_by_id Shop.ProductCRUD (PyUUID 100) PyNone empty_store
    = Raise (HTTPException 404 "Product not found").
Proof.
  assert (Hrun : delete Shop.ProductCRUD Shop.the_product Shop.with_product
                 = (empty_store, Return ())).
  { vm_compute. reflexivity. }
  split; [exact Hrun|].
  destruct (delete_then_get_by_id Shop.ProductCRUD Shop.the_product
              Shop.with_product empty_store Hrun) as (u & Hu & Hget & _).
  assert (Hu' : pk Shop.the_product = Some 100%N) by reflexivity.
  rewrite Hu' in Hu. injection Hu as <-. exact Hget.
Defined.

Lemma filter_idemp {A : Type} (P : A → Prop) `{∀ x, Decision (P x)}
    (l : list A) :
  filter P (filter P l) = filter P l.
Proof.
  rewrite list_filter_filter. apply list_filter_iff. intros x. tauto.
Qed.

Lemma nullify_idemp (column : string) (u : N) (item : gmap string pyval) :
  nullify column u (nullify column u item) = nullify column u item.
Proof.
  unfold nullify. destruct (belongs_to column u item) eqn:E; [|by rewrite E].
  unfold belongs_to. by rewrite lookup_insert_eq.
Qed.

(** X8. [delete] needs an identity, not a stored row.  An entity without a
    key is refused with [InvalidRequestError] and the store is left as it
    was.  An entity with a key is accepted, whether or not a row is stored
    under the key.  Deleting is idempotent: after a delete that returned,
    deleting the same entity again returns too and changes nothing. *)
Theorem delete_twice (self : BaseCRUD) (model : gmap string pyval)
    (st : Store) :
  (pk model = None →
   delete self model st
   = (st, Raise (InvalidRequestError "Instance is not persisted")))
  ∧ (∀ u, pk model = Some u → ∃ st', delete self model st = (st', Return ()))
  ∧ (∀ st', delete self model st = (st', Return ()) →
            delete self model st' = (st', Return ())).
Proof.
  split; [|split].
  - intros Hpk. unfold delete, Transactional, session_delete. by rewrite Hpk.
  - intros u Hpk. unfold delete, Transactional, session_delete.
    rewrite Hpk. simpl. eauto.
  - intros st' H. apply delete_inv in H. apply delete_inv.
    unfold session_delete in *. destruct (pk model) as [u|]; [|discriminate].
    injection H as <-. f_equal.
    destruct (model_class self); simpl; f_equal;
      try apply filter_idemp.
    rewrite <- list_fmap_compose. apply list_fmap_ext.
    intros i item _. apply nullify_idemp.
Qed.

Lemma delete_twice_witness :
  delete Shop.ProductCRUD Shop.the_product Shop.with_product
  = (empty_store, Return ())
  ∧ delete Shop.ProductCRUD Shop.the_product empty_store
    = (empty_store, Return ()).
Proof.
  assert (Hrun : delete Shop.ProductCRUD Shop.the_product Shop.with_product
                 = (empty_store, Return ())).
  { vm_compute. reflexivity. }
  split; [exact Hrun|].
  destruct (delete_twice Shop.ProductCRUD Shop.the_product Shop.with_product)
    as (_ & _ & Hagain).
  exact (Hagain empty_store Hrun).
Defined.

(** ** What a write leaves alone *)

Lemma reduce_insert_items_rows (items : list (gmap string pyval)) :
  ∀ st st',
  reduce (λ s item, insert_row OrderItem item s) items st = Return st' →
  order_items st' = (order_items st ++ items)%list
  ∧ products st' = products st
  ∧ orders st' = orders st.
Proof.
  induction items as [|item items IH]; intros st st'; simpl.
  - intros [= <-]. by rewrite app_nil_r.
  - intros H. apply bind_inr in H as (st1 & H1 & H2).
    destruct (IH _ _ H2) as (-> & -> & ->).
    apply insert_row_inv in H1 as (u & _ & _ & _ & _ & ->). simpl.
    by rewrite <- app_assoc.
Qed.

(** The tables after a [create] that returned. *)
Lemma create_tables (self : BaseCRUD) (d : Draws)
    (payload : Pydantic.BaseModel) (st st' : Store) (inst : Instance) :
  create self d payload st = (st', Return inst) →
  ∀ m, table m st'
       = (table m st
          ++ (if decide (m = model_class self) then [i_attrs inst] else [])
          ++ (if decide (m = OrderItem) then i_order_items inst else []))%list.
Proof.
  intros H. apply create_inv in H as (model & Hm & Hadd).
  unfold add_new in Hadd.
  apply bind_inr in Hadd as (st1 & Hins & Hadd).
  apply bind_inr in Hadd as (st2 & Hred & [= <- <-]). cbn [i_attrs i_order_items].
  apply insert_row_inv in Hins as (u & _ & _ & _ & _ & ->).
  apply reduce_insert_items_rows in Hred as (Hi & Hp & Ho).
  assert (Hflat : model_class self ≠ Order → i_order_items model = []).
  { by apply (instantiate_children _ _ _ _ Hm). }
  intros m. destruct m; simpl.
  - rewrite Hp. destruct (model_class self); simpl; by rewrite ?app_nil_r.
  - rewrite Ho. destruct (model_class self); simpl; by rewrite ?app_nil_r.
  - rewrite Hi. destruct (model_class self) eqn:E; simpl.
    + by rewrite Hflat.
    + done.
    + rewrite Hflat by done. by rewrite <- app_assoc.
Qed.

(** X10. [create] only appends.  When it returns, every table of the old
    store is a prefix of the same table of the new store: the repository's
    table gains the returned entity at its end, the item table gains the
    items of a created order, and no stored row is changed, moved or
    removed. *)
Theorem create_appends (self : BaseCRUD) (d : Draws)
    (payload : Pydantic.BaseModel) (st st' : Store) (inst : Instance) :
  create self d payload st = (st', Return inst) →
  (∀ m, table m st'
        = (table m st
           ++ (if decide (m = model_class self) then [i_attrs inst] else [])
           ++ (if decide (m = OrderItem) then i_order_items inst else []))%list)
  ∧ (∀ m, table m st `prefix_of` table m st')
  ∧ (∀ m i row, table m st !! i = Some row → table m st' !! i = Some row)
  ∧ length (table (model_class self) st')
    = S (length (table (model_class self) st) + 
         (if decide (model_class self = OrderItem)
          then length (i_order_items inst) else 0))%nat.
Proof.
  intros H. pose proof (create_tables _ _ _ _ _ _ H) as Ht.
  split; [exact Ht|]. split; [|split].
  - intros m. rewrite (Ht m). by eexists.
  - intros m i row Hi. rewrite (Ht m). by apply lookup_app_l_Some.
  - rewrite (Ht (model_class self)). rewrite decide_True by done.
    rewrite !length_app. simpl. case_decide; simpl; lia.
Qed.

Lemma create_appends_witness :
  create Shop.ProductCRUD (Shop.draws 100) Shop.widget empty_store
  = (Shop.with_product,
     Return {| i_attrs := Shop.the_product; i_order_items := [] |})
  ∧ products Shop.with_product = [Shop.the_product]
  ∧ order_items Shop.with_product = [].
Proof.
  assert (Hrun :
    create Shop.ProductCRUD (Shop.draws 100) Shop.widget empty_store
    = (Shop.with_product,
       Return {| i_attrs := Shop.the_product; i_order_items := [] |})).
  { vm_compute. reflexivity. }
  split; [exact Hrun|].
  destruct (create_appends Shop.ProductCRUD (Shop.draws 100) Shop.widget
              empty_store Shop.with_product _ Hrun) as (Ht & _).
  split; [exact (Ht Product) | exact (Ht OrderItem)].
Defined.

Lemma filter_all {A : Type} (P : A → Prop) `{∀ x, Decision (P x)}
    (l : list A) :
  Forall P l → filter P l = l.
Proof.
  induction 1 as [|x l Hx _ IH]; [done|].
  rewrite filter_cons. by rewrite decide_True, IH.
Qed.

Lemma fmap_fixed {A : Type} (f : A → A) (l : list A) :
  Forall (λ x, f x = x) l → f <$> l = l.
Proof.
  induction 1 as [|x l Hx _ IH]; [done|]. by rewrite fmap_cons, Hx, IH.
Qed.

Lemma drop_pk_fresh (u : N) (rows : list (gmap string pyval)) :
  u ∉ pks rows → drop_pk u rows = rows.
Proof.
  intros Hfresh. unfold drop_pk. induction rows as [|r rows IH]; [done|].
  rewrite filter_cons. rewrite pks_cons in Hfresh.
  destruct (pk r) as [x|] eqn:Hx.
  - apply not_elem_of_cons in Hfresh as [Hne Hfresh].
    rewrite decide_True by congruence. by rewrite IH.
  - rewrite decide_True by congruence. by rewrite IH.
Qed.

Lemma drop_pk_app (u : N) (l1 l2 : list (gmap string pyval)) :
  drop_pk u (l1 ++ l2) = (drop_pk u l1 ++ drop_pk u l2)%list.
Proof. apply filter_app. Qed.

Lemma drop_pk_own (u : N) (row : gmap string pyval) :
  pk row = Some u → drop_pk u [row] = [].
Proof.
  intros H. unfold drop_pk. rewrite filter_cons, filter_nil.
  by rewrite decide_False by (intros Hne; by apply Hne).
Qed.

(** In a store whose references hold, no item points at an unused key. *)
Lemma unreferenced_fresh (st : Store) (column : string) (m : Model) (u : N)
    (item : gmap string pyval) :
  references_hold st →
  (column, m) ∈ foreign_keys OrderItem →
  u ∉ pks (table m st) →
  item ∈ order_items st →
  belongs_to column u item = false.
Proof.
  intros Hrefs Hfk Hfresh Hitem.
  destruct (belongs_to column u item) eqn:Hb; [|done].
  unfold belongs_to in Hb. apply sql_eq_uuid in Hb.
  destruct (Hrefs item Hitem) as [Ho Hp].
  apply list_elem_of_In in Hfk. simpl in Hfk.
  destruct Hfk as [[= <- <-]|[[= <- <-]|[]]].
  - destruct Ho as [Hnull|(x & Hx & Hin)]; [by rewrite Hb in Hnull|].
    rewrite Hb in Hx. injection Hx as <-. done.
  - destruct Hp as [Hnull|(x & Hx & Hin)]; [by rewrite Hb in Hnull|].
    rewrite Hb in Hx. injection Hx as <-. done.
Qed.

(** X9. Deleting what was just created restores the store.  In a store
    whose references hold, when [create] returns an entity, [delete] on
    that entity returns and gives back the store [create] started from:
    the new row is removed, the items created with an order are removed
    with it, and no other row is touched. *)
Theorem create_then_delete (self : BaseCRUD) (d : Draws)
    (payload : Pydantic.BaseModel) (st st' : Store) (inst : Instance) :
  references_hold st →
  create self d payload st = (st', Return inst) →
  delete self (i_attrs inst) st' = (st, Return ()).
Proof.
  intros Hrefs H.
  pose proof (create_tables _ _ _ _ _ _ H) as Ht.
  destruct (create_table _ _ _ _ _ _ H) as (u & Hpk & Hfresh & _).
  apply create_inv in H as (model & Hm & Hadd).
  apply add_new_inv in Hadd as (u' & Hid & Hattrs & Hitems).
  assert (u' = u) as ->.
  { pose proof Hpk as Hpk'. rewrite Hattrs, pk_synchronize in Hpk'.
    apply pk_Some in Hpk'. rewrite Hid in Hpk'. by injection Hpk'. }
  assert (Hflat : model_class self ≠ Order → i_order_items inst = []).
  { intros Hne. by rewrite Hitems, (instantiate_children _ _ _ _ Hm Hne). }
  assert (Hown : filter (λ item, belongs_to "order_id" u item = false)
                        (i_order_items inst) = []).
  { apply filter_none. apply Forall_forall. intros item Hin.
    rewrite Hitems in Hin. apply list_elem_of_fmap in Hin as (item0 & -> & _).
    unfold belongs_to. rewrite lookup_insert_eq.
    assert (Ht' : sql_eq (Some (PyUUID u)) (PyUUID u) = true)
      by by apply sql_eq_uuid.
    by rewrite Ht'. }
  apply delete_inv. unfold session_delete.
  rewrite Hpk. f_equal. pose proof (Ht Product) as HP. pose proof (Ht Order) as HO.
  pose proof (Ht OrderItem) as HI. simpl in HP, HO, HI.
  destruct (model_class self) eqn:E; simpl in *.
  - rewrite HP, HO, HI, Hflat by done. rewrite !app_nil_r.
    rewrite drop_pk_app, drop_pk_fresh, drop_pk_own by done.
    rewrite app_nil_r.
    assert (Hn : nullify "product_id" u <$> order_items st = order_items st).
    { apply fmap_fixed. apply Forall_forall. intros item Hitem.
      unfold nullify.
      rewrite (unreferenced_fresh st "product_id" Product u item); try done.
      apply list_elem_of_further, list_elem_of_here. }
    rewrite Hn. by destruct st.
  - rewrite HP, HO, HI. rewrite !app_nil_r.
    rewrite drop_pk_app, drop_pk_fresh, drop_pk_own by done.
    rewrite app_nil_r, filter_app, Hown, app_nil_r.
    assert (Hk : filter (λ item, belongs_to "order_id" u item = false)
                        (order_items st) = order_items st).
    { apply filter_all. apply Forall_forall. intros item Hitem.
      apply (unreferenced_fresh st "order_id" Order u item); try done.
      apply list_elem_of_here. }
    rewrite Hk. by destruct st.
  - rewrite HP, HO, HI, Hflat by done. rewrite !app_nil_r.
    rewrite drop_pk_app, drop_pk_fresh, drop_pk_own by done.
    rewrite app_nil_r. by destruct st.
Qed.

Lemma create_then_delete_witness :
  references_hold Shop.with_product
  ∧ create Shop.OrderCRUD (Shop.draws 200)
           (Shop.order_payload [Shop.item_payload 100 2; Shop.item_payload 100 3])
           Shop.with_product
    = (Shop.with_order, Return created_order)
  ∧ delete Shop.OrderCRUD Shop.the_order Shop.with_order
    = (Shop.with_product, Return ()).
Proof.
  assert (Hrefs : references_hold Shop.with_product).
  { apply (run_calls_consistent
             [CallCreate Shop.ProductCRUD (Shop.draws 100) Shop.widget]
             empty_store consistent_empty). }
  assert (Hrun :
    create Shop.OrderCRUD (Shop.draws 200)
           (Shop.order_payload [Shop.item_payload 100 2; Shop.item_payload 100 3])
           Shop.with_product
    = (Shop.with_order, Return created_order)).
  { vm_compute. reflexivity. }
  split; [exact Hrefs|]. split; [exact Hrun|].
  exact (create_then_delete Shop.OrderCRUD (Shop.draws 200) _ Shop.with_product
           Shop.with_order created_order Hrefs Hrun).
Defined.

(** X11. [update] touches one row.  When it returns for an entity stored
    under key [old], the repository's table keeps its length and its
    order, the row stored under [old] is replaced by the returned entity,
    every other row of the table is as before, and the other tables are
    unchanged. *)
Theorem update_touches_one_row (self : BaseCRUD)
    (existing updated : gmap string pyval) (patch : Pydantic.BaseModel)
    (old : N) (st st' : Store) :
  pk existing = Some old →
  old ∈ pks (table (model_class self) st) →
  update self existing patch st = (st', Return updated) →
  (∀ m, m ≠ model_class self → table m st' = table m st)
  ∧ length (table (model_class self) st')
    = length (table (model_class self) st)
  ∧ (∀ i row, table (model_class self) st !! i = Some row →
              table (model_class self) st' !! i
              = Some (if bool_decide (pk row = Some old) then updated else row)).
Proof.
  intros Hpk Hin H. apply update_inv in H as (_ & _ & Hadd). rewrite Hpk in Hadd.
  apply add_loaded_inv in Hadd as [(old' & [= <-] & _ & Hupd)|[Hout _]];
    [|by destruct (Hout old eq_refl)].
  apply update_row_inv in Hupd as (u & _ & _ & _ & ->).
  split; [|split].
  - intros m Hm. rewrite table_set_table. by rewrite decide_False.
  - rewrite table_set_table, decide_True by done. apply length_fmap.
  - intros i row Hi. rewrite table_set_table, decide_True by done.
    by rewrite list_lookup_fmap, Hi.
Qed.

Lemma update_touches_one_row_witness :
  pk Shop.the_order = Some 200%N
  ∧ 200%N ∈ pks (table (model_class Shop.OrderCRUD) Shop.with_order)
  ∧ order_items
      (update Shop.OrderCRUD Shop.the_order (Shop.status_update shipped)
              Shop.with_order).1
    = order_items Shop.with_order.
Proof.
  assert (Hpk : pk Shop.the_order = Some 200%N) by reflexivity.
  assert (Hin : 200%N ∈ pks (table (model_class Shop.OrderCRUD) Shop.with_order)).
  { apply (bool_decide_unpack _). by vm_compute. }
  split; [exact Hpk|]. split; [exact Hin|].
  assert (Hrun :
    update Shop.OrderCRUD Shop.the_order (Shop.status_update shipped)
           Shop.with_order
    = ((update Shop.OrderCRUD Shop.the_order (Shop.status_update shipped)
               Shop.with_order).1,
       Return (<["status" := PyEnum shipped]> Shop.the_order))).
  { vm_compute. reflexivity. }
  destruct (update_touches_one_row Shop.OrderCRUD Shop.the_order _ _ 200%N
              Shop.with_order _ Hpk Hin Hrun) as (Hother & _).
  apply (Hother OrderItem). discriminate.
Defined.

(** ** [Order.__init__] on malformed items *)

Lemma traverse_from_fails {A B : Type} (f : nat → A → result B) (x : A)
    (l : list A) :
  x ∈ l → (∀ n, ∃ e, f n x = Raise e) →
  ∀ start, ∃ e, traverse_from f start l = Raise e.
Proof.
  intros Hin Hx. induction l as [|y l IH]; intros start.
  - by apply elem_of_nil in Hin.
  - simpl. destruct (f start y) as [e|b] eqn:Hy; [by exists e|].
    apply elem_of_cons in Hin as [->|Hin].
    + destruct (Hx start) as [e He]. rewrite Hy in He. discriminate.
    + destruct (IH Hin (S start)) as [e He]. exists e.
      rewrite bind_Return. by rewrite He.
Qed.

Lemma table_init_item_error (d : Draws) (n : nat)
    (kwargs : gmap string pyval) (e : Exn) :
  SQLModel.table_init d n OrderItem kwargs = Raise e →
  e = AttributeError "_sa_instance_state".
Proof.
  unfold SQLModel.table_init. simpl.
  destruct (kwargs !! "order") as [[]|]; simpl; try (by intros [= <-]);
    destruct (kwargs !! "product") as [[]|]; simpl; by intros [=].
Qed.

Lemma table_init_order (d : Draws) (kwargs : gmap string pyval) :
  SQLModel.table_init d 0 Order (base.delete "order_items" kwargs)
  = Return (SQLModel.init_fields d 0 Order (base.delete "order_items" kwargs)).
Proof.
  unfold SQLModel.table_init. simpl. by rewrite lookup_delete_eq.
Qed.

(** X13. An order is not built from malformed items.  When the
    [order_items] of the payload cannot be iterated, or one of its elements
    is not a mapping, [create] on the order repository raises and stores
    nothing, not even the order; an [order_items] that cannot be iterated
    raises the [TypeError] of the iteration. *)
Theorem create_order_malformed_items (self : BaseCRUD) (d : Draws)
    (payload : Pydantic.BaseModel) (st : Store) (order_items : pyval) :
  model_class self = Order →
  extract_attributes_from_schema payload None !! "order_items"
  = Some order_items →
  (∀ e, iterate order_items = Raise e →
        create self d payload st = (st, Raise e))
  ∧ (∀ l x, iterate order_items = Return l → x ∈ l →
            (∀ kv, x ≠ PyDict kv) →
            ∃ msg, create self d payload st = (st, Raise (TypeError msg))
                   ∨ create self d payload st
                     = (st, Raise (AttributeError msg))).
Proof.
  intros Hm Hitems.
  assert (Hcreate : create self d payload st
    = Transactional (λ st,
        model ← (l ← iterate order_items;
                 items ← traverse_from (OrderItem_init d) 1 l;
                 Return {| i_attrs := SQLModel.init_fields d 0 Order
                             (base.delete "order_items"
                                (extract_attributes_from_schema payload None));
                           i_order_items := items |});
        add_new Order model st) st).
  { unfold create. rewrite Hm. simpl. unfold Order_init.
    by rewrite Hitems, table_init_order. }
  split.
  - intros e He. rewrite Hcreate. unfold Transactional. by rewrite He.
  - intros l x Hl Hin Hx.
    assert (Hfail : ∀ n, ∃ e, OrderItem_init d n x = Raise e).
    { intros n. destruct x; try by eexists. by destruct (Hx d0). }
    destruct (traverse_from_fails _ x l Hin Hfail 1) as [e He].
    assert (Hraise : create self d payload st = (st, Raise e)).
    { rewrite Hcreate. unfold Transactional. by rewrite Hl, bind_Return, He. }
    rewrite Hraise. clear Hraise Hcreate.
    assert (Hkind : ∀ l' n, traverse_from (OrderItem_init d) n l' = Raise e →
              ∃ msg, e = TypeError msg ∨ e = AttributeError msg).
    { induction l' as [|y l' IH]; intros n; simpl; [discriminate|].
      destruct (OrderItem_init d n y) as [e'|b] eqn:Hy.
      - intros [= <-]. unfold OrderItem_init in Hy.
        destruct y; try (injection Hy as <-; eauto).
        apply table_init_item_error in Hy as ->. eauto.
      - rewrite bind_Return.
        destruct (traverse_from (OrderItem_init d) (S n) l') as [e'|ys] eqn:Ht;
          [|discriminate].
        intros [= <-]. by apply (IH (S n)). }
    destruct (Hkind l 1 He) as (msg & [Heq|Heq]); subst e; eauto.
Qed.

Lemma create_order_malformed_items_witness :
  create Shop.OrderCRUD (Shop.draws 200) order_items_number Shop.with_product
  = (Shop.with_product, Raise (TypeError "'int' object is not iterable"))
  ∧ ∃ msg,
      create Shop.OrderCRUD (Shop.draws 200) order_items_string
             Shop.with_product
      = (Shop.with_product, Raise (TypeError msg))
      ∨ create Shop.OrderCRUD (Shop.draws 200) order_items_string
               Shop.with_product
        = (Shop.with_product, Raise (AttributeError msg)).
Proof.
  split.
  - destruct (create_order_malformed_items Shop.OrderCRUD (Shop.draws 200)
                order_items_number Shop.with_product (PyInt 3) eq_refl)
      as [Hiter _]; [by vm_compute|].
    by apply Hiter.
  - destruct (create_order_malformed_items Shop.OrderCRUD (Shop.draws 200)
                order_items_string Shop.with_product
                (Pydantic.dump (Pydantic.SList [Shop.item_payload 100 2;
                                  Pydantic.SAtom (PyStr "two widgets")]))
                eq_refl)
      as [_ Hitem]; [by vm_compute|].
    apply (Hitem _ (PyStr "two widgets") eq_refl).
    + apply list_elem_of_further, list_elem_of_here.
    + discriminate.
Defined.

(** ** The uniquing path on stored tables *)

Lemma insert_row_keys_present (m : Model) (row : gmap string pyval)
    (st st' : Store) :
  keys_present st → insert_row m row st = Return st' → keys_present st'.
Proof.
  intros Hk H. apply insert_row_inv in H as (u & Hpk & _ & _ & _ & ->).
  intros m'. rewrite table_set_table. case_decide as Hm; [|apply Hk].
  apply Forall_app. split; [apply Hk|]. apply Forall_singleton. by rewrite Hpk.
Qed.

Lemma update_row_keys_present (m : Model) (old : N) (row : gmap string pyval)
    (st st' : Store) :
  keys_present st → update_row m old row st = Return st' → keys_present st'.
Proof.
  intros Hk H. apply update_row_inv in H as (u & Hpk & _ & _ & ->).
  intros m'. rewrite table_set_table. case_decide as Hm; [|apply Hk].
  apply Forall_fmap. eapply Forall_impl; [apply (Hk m)|].
  intros r Hr. simpl. case_bool_decide; [by rewrite Hpk | done].
Qed.

Lemma session_delete_keys_present (m : Model) (model : gmap string pyval)
    (st st' : Store) :
  keys_present st → session_delete m model st = Return st' → keys_present st'.
Proof.
  intros Hk H. unfold session_delete in H.
  destruct (pk model) as [u|]; [|discriminate].
  pose proof (Hk Product) as HP. pose proof (Hk Order) as HO.
  pose proof (Hk OrderItem) as HI. simpl in HP, HO, HI.
  assert (Hf : ∀ (P : gmap string pyval → Prop) `{∀ r, Decision (P r)} rows,
            Forall (λ row, is_Some (pk row)) rows →
            Forall (λ row, is_Some (pk row)) (filter P rows)).
  { intros P ? rows Hrows. apply Forall_forall. intros r Hr.
    apply list_elem_of_filter in Hr as [_ Hr].
    by apply (proj1 (Forall_forall _ _) Hrows). }
  destruct m; injection H as <-; intros m'; destruct m'; simpl;
    try done; try by apply Hf.
  apply Forall_fmap. eapply Forall_impl; [exact HI|].
  intros r Hr. simpl. unfold nullify.
  destruct (belongs_to "product_id" u r); [|done]. by rewrite pk_insert_other.
Qed.

Lemma run_calls_keys_present (calls : list Call) :
  ∀ st, keys_present st → keys_present (run_calls calls st).
Proof.
  induction calls as [|c calls IH]; intros st Hk; [done|].
  simpl. apply IH. clear IH.
  assert (Hitems : ∀ items s s',
            keys_present s →
            reduce (λ s item, insert_row OrderItem item s) items s = Return s' →
            keys_present s').
  { induction items as [|item items IHi]; intros s s' Hs; simpl.
    - by intros [= <-].
    - intros H. apply bind_inr in H as (s1 & H1 & H2).
      apply (IHi s1 s'); [|done]. by apply (insert_row_keys_present OrderItem item s). }
  destruct c; simpl.
  - unfold create, Transactional.
    destruct (_ ≫= _) as [e|[inst st']] eqn:E; simpl; [done|].
    apply bind_inr in E as (model & _ & Hadd). unfold add_new in Hadd.
    apply bind_inr in Hadd as (st1 & Hins & Hadd).
    apply bind_inr in Hadd as (st2 & Hred & [= _ <-]).
    eapply Hitems; [|exact Hred]. eapply insert_row_keys_present; [exact Hk | exact Hins].
  - unfold update, Transactional.
    destruct (_ ≫= _) as [e|[updated st']] eqn:E; simpl; [done|].
    apply bind_inr in E as (m1 & _ & E).
    apply bind_inr in E as (st1 & Hadd & [= _ <-]).
    apply add_loaded_inv in Hadd as [(old & _ & _ & Hupd)|[_ Hins]].
    + eapply update_row_keys_present; [exact Hk | exact Hupd].
    + eapply insert_row_keys_present; [exact Hk | exact Hins].
  - unfold delete, Transactional.
    destruct (_ ≫= _) as [e|[[] st']] eqn:E; simpl; [done|].
    apply bind_inr in E as (st1 & Hdel & [= <-]).
    eapply session_delete_keys_present; [exact Hk | exact Hdel].
Qed.

Lemma keys_present_empty : keys_present empty_store.
Proof. intros m. destruct m; constructor. Qed.

Lemma unique_from_NoDup (rows : list (gmap string pyval)) :
  ∀ seen,
  NoDup (pk <$> rows) → (∀ row, row ∈ rows → pk row ∉ seen) →
  unique_from seen rows = rows.
Proof.
  induction rows as [|r rows IH]; intros seen Hnd Hseen; [done|].
  simpl. rewrite fmap_cons in Hnd. apply NoDup_cons in Hnd as [Hr Hnd].
  rewrite bool_decide_eq_false_2 by (apply Hseen; by left).
  f_equal. apply IH; [done|]. intros row Hrow Hin.
  apply elem_of_cons in Hin as [Heq|Hin].
  - apply Hr. rewrite <- Heq. by apply list_elem_of_fmap_2.
  - apply (Hseen row); [by right | done].
Qed.

Lemma NoDup_pk_table (rows : list (gmap string pyval)) :
  Forall (λ row, is_Some (pk row)) rows → NoDup (pks rows) →
  NoDup (pk <$> rows).
Proof.
  induction 1 as [|r rows [u Hu] _ IH]; [constructor|].
  rewrite pks_cons, Hu, fmap_cons, Hu. intros Hnd.
  apply NoDup_cons in Hnd as [Hfresh Hnd]. apply NoDup_cons.
  split; [|by apply IH]. intros Hin.
  apply list_elem_of_fmap in Hin as (r' & Hr' & Hin').
  apply Hfresh, elem_of_pks. eauto.
Qed.

(** X14. On stored data the uniquing path changes nothing.  After any
    sequence of repository calls on an empty database, a [get_by] with
    [unique=False] and a falsy relationship argument returns the same list
    whether the argument is [None] (read through [_all]) or not (read
    through [_all_unique]): without joins no entity comes back twice. *)
Theorem get_by_falsy_join_same_rows (calls : list Call) (self : BaseCRUD)
    (field : string) (value join_ : pyval) :
  truthy join_ = false →
  get_by self field value join_ false (run_calls calls empty_store)
  = get_by self field value PyNone false (run_calls calls empty_store).
Proof.
  intros Hfalsy. set (st := run_calls calls empty_store).
  assert (Hnd : NoDup (pk <$> table (model_class self) st)).
  { apply NoDup_pk_table.
    - apply (run_calls_keys_present calls empty_store keys_present_empty).
    - apply (run_calls_consistent calls empty_store consistent_empty). }
  unfold get_by, _query. rewrite !optional_join_falsy by done.
  rewrite !bind_Return.
  destruct (_get_by self (select (model_class self)) field value)
    as [e|query] eqn:Hq; [done|].
  apply get_by_clause in Hq as [criterion ->]. rewrite !bind_Return.
  cbn [is_not_None]. destruct (is_not_None join_); [|done].
  rewrite all_unique_spec. unfold _all, all.
  rewrite rows_of_scalars_plain by done.
  rewrite fetch_one_criterion. simpl. do 2 f_equal.
  apply unique_from_NoDup; [|intros row _ H; by apply elem_of_nil in H].
  eapply sublist_NoDup; [exact Hnd|].
  apply fmap_sublist. apply sublist_filter.
Qed.

Lemma get_by_falsy_join_same_rows_witness :
  truthy (PySet []) = false
  ∧ get_by Shop.OrderItemCRUD "order_id" (PyUUID 200) (PySet []) false
           (run_calls product_deleted empty_store)
    = get_by Shop.OrderItemCRUD "order_id" (PyUUID 200) PyNone false
             (run_calls product_deleted empty_store).
Proof.
  split; [reflexivity|].
  by apply (get_by_falsy_join_same_rows product_deleted Shop.OrderItemCRUD).
Defined.

(** ** Relationship loading *)

Lemma unique_from_seen_replicate (row : gmap string pyval) (n : nat)
    (rest : list (gmap string pyval)) (seen : list (option N)) :
  pk row ∈ seen →
  unique_from seen (replicate n row ++ rest) = unique_from seen rest.
Proof.
  intros Hin. induction n as [|n IH]; [done|].
  simpl. by rewrite bool_decide_eq_true_2.
Qed.

Lemma unique_from_bind_replicate (n : gmap string pyval → nat)
    (rows : list (gmap string pyval)) :
  Forall (λ row, (1 ≤ n row)%nat) rows →
  ∀ seen,
  unique_from seen (row ← rows; replicate (n row) row) = unique_from seen rows.
Proof.
  induction 1 as [|r rows Hr _ IH]; intros seen; [done|].
  rewrite bind_cons. destruct (n r) as [|k] eqn:Hn; [lia|].
  simpl. case_bool_decide as Hseen.
  - rewrite unique_from_seen_replicate by done. apply IH.
  - f_equal. rewrite unique_from_seen_replicate by by left. apply IH.
Qed.

Lemma fanout_positive (st : Store) (query : Select) (row : gmap string pyval) :
  Forall (λ ld, (1 ≤ ld_rows ld st row)%nat) (sel_options query) →
  (1 ≤ fanout st query row)%nat.
Proof.
  unfold fanout. induction 1 as [|ld lds Hld _ IH]; simpl; [done|].
  nia.
Qed.

(** X15. Loading relationships does not change which entities come back.
    When the join methods only load and every loader they add yields at
    least one row per parent (as an outer join does), a [get_by] with
    [unique=False] and a set of relationships returns the matching rows of
    the plain query with repeats removed; on a table where each row has its
    own key that is the list the call without relationships returns. *)
Theorem get_by_relationships_same_entities (self : BaseCRUD) (field : string)
    (value : pyval) (names : list pyval) (st : Store) (query : Select) :
  joins_only_load self →
  names ≠ [] →
  _query self (PySet names) = Return query →
  field ∈ columns (model_class self) →
  (∀ row, Forall (λ ld, (1 ≤ ld_rows ld st row)%nat) (sel_options query)) →
  get_by self field value (PySet names) false st
  = Return (RList (unique_from [] (matching self field value st)))
  ∧ (NoDup (pk <$> table (model_class self) st) →
     get_by self field value (PySet names) false st
     = get_by self field value PyNone false st).
Proof.
  intros Hjoins Hne Hq Hfield Hpos.
  destruct (query_shape _ _ _ Hjoins Hq) as [Hfrom Hwhere].
  assert (Hget : get_by self field value (PySet names) false st
            = Return (RList (unique_from [] (matching self field value st)))).
  { unfold get_by. rewrite Hq, bind_Return. rewrite get_by_column by done. rewrite bind_Return.
    cbn [is_not_None]. rewrite all_unique_spec.
    change (Return (RList (unique_from [] (fetch st (where_ field value query))))
            = Return (RList (unique_from [] (matching self field value st)))).
    do 2 f_equal. unfold fetch.
    rewrite unique_from_bind_replicate.
    - f_equal. simpl. rewrite Hfrom. unfold matching.
      apply list_filter_iff. intros row. by rewrite row_matches_where.
    - apply Forall_forall. intros row _. apply fanout_positive.
      apply (Hpos row). }
  split; [exact Hget|].
  intros Hnd. rewrite Hget, get_by_plain by done. do 2 f_equal.
  apply unique_from_NoDup; [|intros row _ H; by apply elem_of_nil in H].
  eapply sublist_NoDup; [exact Hnd|].
  apply fmap_sublist. unfold matching. apply sublist_filter.
Qed.

Lemma get_by_relationships_same_entities_witness :
  joins_only_load Shop.OrderCRUD
  ∧ [PyStr "order_items"] ≠ []
  ∧ "id" ∈ columns (model_class Shop.OrderCRUD)
  ∧ get_by Shop.OrderCRUD "id" (PyUUID 200) (PySet [PyStr "order_items"]) false
           Shop.with_order
    = get_by Shop.OrderCRUD "id" (PyUUID 200) PyNone false Shop.with_order.
Proof.
  assert (Hne : [PyStr "order_items"] ≠ []) by discriminate.
  split; [exact joins_only_load_OrderCRUD|]. split; [exact Hne|].
  split; [apply id_is_column|].
  destruct (get_by_relationships_same_entities Shop.OrderCRUD "id" (PyUUID 200)
              [PyStr "order_items"] Shop.with_order
              (options Shop.joinedload_order_items (select Order))
              joins_only_load_OrderCRUD Hne eq_refl (id_is_column _))
    as [_ Hsame].
  - intros row. apply Forall_singleton. simpl. apply Nat.le_max_l.
  - apply Hsame. apply (bool_decide_unpack _). by vm_compute.
Defined.
